(** * Rendering adapters of the proof-methods site (App.tsx)

    A shallow embedding of the parts of [App.tsx] that load the external
    engines and wrap them: the [KaTeXRenderer] and [MermaidDiagram]
    components, the resource-loading effect of [App] and its readiness
    gate.  The repository holds two variants of the file; the module
    [Older] embeds the variant without [isMermaidLoaded], everything else
    follows [metodos_de_prova/src/App.tsx]. *)

From Stdlib Require Import String Ascii List Bool Arith NArith Lia.
From Stdlib Require Import DecimalString DecimalN.
Import ListNotations.
Open Scope string_scope.

(** ** JavaScript values, truthiness and completions *)

Module Js.

(** What a [throw] carries, as far as the handlers of this program look at
    it with [e instanceof Error ? e.message : String(e)]: an [Error] whose
    message is a string (or a value a template literal turns into that
    string); a value that is no [Error] and that [String(e)] turns into a
    text; an [Error] whose message has no string conversion
    (a Symbol, an object without one); a value that is no [Error] and that
    [String(e)] cannot convert (as [Object.create(null)]). *)
Inductive Thrown : Type :=
| ErrorObject (message : string)
| OtherValue (asString : string)
| ErrorWithoutText
| ValueWithoutText.

(** A string is truthy unless it is empty; [null] is falsy. *)
Definition truthy (s : string) : bool :=
  match s with
  | EmptyString => false
  | String _ _ => true
  end.

Definition truthy_opt (o : option string) : bool :=
  match o with
  | Some s => truthy s
  | None => false
  end.

(** The double quote, for the markup the program writes. *)
Definition dquote : string := String (ascii_of_nat 34) EmptyString.

(** Statements either complete normally or throw. *)
Inductive Outcome (A : Type) : Type :=
| Normal (a : A)
| Throw (e : Thrown).
Arguments Normal {A} a.
Arguments Throw {A} e.

(** State and exceptions: a thrown exception keeps the state reached. *)
Definition M (St A : Type) : Type := St -> Outcome A * St.

Definition ret {St A} (a : A) : M St A := fun s => (Normal a, s).

Definition bind {St A B} (m : M St A) (k : A -> M St B) : M St B :=
  fun s =>
    match m s with
    | (Normal a, s') => k a s'
    | (Throw e, s') => (Throw e, s')
    end.

Definition try_catch {St A} (body : M St A) (handler : Thrown -> M St A)
  : M St A :=
  fun s =>
    match body s with
    | (Normal a, s') => (Normal a, s')
    | (Throw e, s') => handler e s'
    end.

Definition modify {St} (f : St -> St) : M St unit :=
  fun s => (Normal tt, f s).

Definition when {St} (b : bool) (m : M St unit) : M St unit :=
  if b then m else ret tt.

Definition lift {St A} (o : Outcome A) : M St A := fun s => (o, s).

(** The [TypeError] of a string conversion that fails.  One value stands
    for it, whichever conversion failed: the wording of its message is
    the JavaScript engine's and nothing here looks at it. *)
Definition typeError : Thrown :=
  ErrorObject "Cannot convert object to primitive value".

(** What [errorMsg] holds: a string, or the message of an [Error] that
    is not one and cannot be made one. *)
Inductive Message : Type :=
| Text (s : string)
| NoText.

(** [(e instanceof Error) ? e.message : String(e)] *)
Definition errorMsg (e : Thrown) : Outcome Message :=
  match e with
  | ErrorObject m => Normal (Text m)
  | OtherValue s => Normal (Text s)
  | ErrorWithoutText => Normal NoText
  | ValueWithoutText => Throw typeError
  end.

(** [${errorMsg}] inside a template literal. *)
Definition interpolate (m : Message) : Outcome string :=
  match m with
  | Text s => Normal s
  | NoText => Throw typeError
  end.

Definition no_dash (s : string) : Prop :=
  forall n, String.get n s <> Some "-"%char.

Definition is_digit (c : ascii) : bool :=
  Nat.leb 48 (nat_of_ascii c) && Nat.leb (nat_of_ascii c) 57.

Fixpoint all_digits (s : string) : bool :=
  match s with
  | EmptyString => true
  | String c r => is_digit c && all_digits r
  end.

(** [occurs needle hay]: [needle] is a substring of [hay]. *)
Fixpoint occurs (needle hay : string) : bool :=
  if String.prefix needle hay then true
  else match hay with
       | EmptyString => false
       | String _ rest => occurs needle rest
       end.

End Js.

Notation "x <- m ;; k" := (Js.bind m (fun x => k))
  (at level 61, m at next level, right associativity).
Notation "m ;;; k" := (Js.bind m (fun _ => k))
  (at level 61, right associativity).

(** ** KaTeXRenderer *)

Module KaTeX.
Import Js.

(** What the effect of [KaTeXRenderer] can touch: the span behind [ref]
    ([None] while [ref.current] is null, otherwise what its innerHTML
    reads) and the console. *)
Inductive LogEntry : Type :=
| ConsoleError (label : string) (e : Thrown).

Record Page : Type := mkPage {
  span : option string;
  console : list LogEntry
}.

(** [window.katex.render(math, target, {displayMode, throwOnError})]: the
    engine is not part of the repository.  It is given the target as it
    is (what its innerHTML reads, or null) and either returns or throws;
    [html] is what the innerHTML of the target reads when it does. *)
Inductive EngineResult : Type :=
| Rendered (html : string)
| Raised (html : string) (e : Thrown).

Definition Engine : Type :=
  string -> option string -> bool -> bool -> EngineResult.

(** The engine works on the nodes of its target.  With a null target
    there is no element for it to leave anything in. *)
Definition write (html : string) (p : Page) : Page :=
  mkPage (option_map (fun _ => html) (span p)) (console p).

Definition render (k : Engine) (math : string)
           (displayMode throwOnError : bool) : M Page unit :=
  fun p =>
    match k math (span p) displayMode throwOnError with
    | Rendered html => (Normal tt, write html p)
    | Raised html e => (Throw e, write html p)
    end.

(** [ref.current.innerHTML = s].  The browser parses [s] into nodes;
    [parseHTML s] is what the innerHTML of the element reads afterwards.
    The parser is the browser's and is taken as it comes.  On a null ref
    the assignment is a [TypeError]. *)
Definition set_innerHTML (parseHTML : string -> string) (s : string)
  : M Page unit :=
  fun p =>
    match span p with
    | Some _ => (Normal tt, mkPage (Some (parseHTML s)) (console p))
    | None => (Throw typeError, p)
    end.

Definition console_error (label : string) (e : Thrown) : M Page unit :=
  modify (fun p => mkPage (span p) (console p ++ [ConsoleError label e])).

(** The string the catch block builds around the failure text, which it
    inserts as it is. *)
Definition error_markup (errorMsg : string) : string :=
  "<span style=" ++ dquote ++ "color: red;" ++ dquote
    ++ ">Erro de renderização matemática: " ++ errorMsg ++ "</span>".

Definition template (errorMsg : Message) : Outcome string :=
  match interpolate errorMsg with
  | Normal s => Normal (error_markup s)
  | Throw e => Throw e
  end.

Definition ref_current (p : Page) : bool :=
  match span p with Some _ => true | None => false end.

(** The catch block of [App.tsx]: [errorMsg] is computed before the ref
    is looked at. *)
Definition catch_block (parseHTML : string -> string) (e : Thrown)
  : M Page unit :=
  console_error "KaTeX rendering error:" e ;;;
  errorMsg <- lift (Js.errorMsg e) ;;
  fun p =>
    when (ref_current p)
         (markup <- lift (template errorMsg) ;; set_innerHTML parseHTML markup)
         p.

(** The catch block of the older file computes [errorMsg] under the test
    of the ref. *)
Definition catch_block_older (parseHTML : string -> string) (e : Thrown)
  : M Page unit :=
  console_error "KaTeX rendering error:" e ;;;
  fun p =>
    when (ref_current p)
         (errorMsg <- lift (Js.errorMsg e) ;;
          markup <- lift (template errorMsg) ;;
          set_innerHTML parseHTML markup)
         p.

(** The body of the [useEffect] of [KaTeXRenderer]. *)
Definition effect (katex : option Engine) (parseHTML : string -> string)
           (math : string) (displayMode : bool) : M Page unit :=
  fun p =>
    match katex with
    | Some k =>
        if ref_current p then
          try_catch (render k math displayMode false)
                    (catch_block parseHTML) p
        else (Normal tt, p)
    | None => (Normal tt, p)
    end.

(** The variant of the older file tests [window.katex] only. *)
Definition effect_older (katex : option Engine)
           (parseHTML : string -> string) (math : string)
           (displayMode : bool) : M Page unit :=
  match katex with
  | Some k => try_catch (render k math displayMode false)
                        (catch_block_older parseHTML)
  | None => ret tt
  end.

Definition run (m : M Page unit) (p : Page) : Page := snd (m p).

(** An engine that replaces the content of its target: what it leaves
    there does not depend on what was there. *)
Definition overwrites (k : Engine) : Prop :=
  forall math displayMode throwOnError prev prev',
    k math (Some prev) displayMode throwOnError
    = k math (Some prev') displayMode throwOnError.

(** A small engine to run the effect on: it typesets into a [katex]
    span and throws a parse error on an unclosed group. *)
Definition toy_engine : Engine :=
  fun math _ displayMode _ =>
    if String.eqb math "\frac{1" then
      Raised EmptyString (ErrorObject "KaTeX parse error: Expected '}'")
    else
      Rendered ((if displayMode then "<span class=katex-display>"
                 else "<span class=katex>") ++ math ++ "</span>").

(** An engine that throws a bare object, [Object.create(null)]. *)
Definition bare_object_engine : Engine :=
  fun _ _ _ _ => Raised EmptyString ValueWithoutText.

(** A parser for texts without markup: the innerHTML reads what was
    assigned. *)
Definition plain (s : string) : string := s.

End KaTeX.

(** ** MermaidDiagram *)

Module Mermaid.
Import Js.

Record Props : Type := mkProps {
  chart : string;
  isMermaidLoaded : bool
}.

(** What one run of the effect reads from its surroundings: whether
    [window.mermaid] is defined, [Date.now()], and the base-36 text of
    [Math.random()], as in [0.4fzyo82mvyr]. *)
Record Env : Type := mkEnv {
  mermaid : bool;
  now : N;
  random36 : string
}.

(** The two [useState] cells, and whether [mermaidRef.current] holds an
    element. *)
Record State : Type := mkState {
  renderError : option string;
  diagramSvg : option string;
  mermaidRef : bool
}.

Record Call : Type := mkCall {
  call_id : string;
  call_chart : string
}.

(** The effect body as the sequence of things it does, in order. *)
Inductive Action : Type :=
| SetRenderError (v : option string)
| SetDiagramSvg (v : option string)
| Render (uniqueId chart : string).

Definition string_of_N (n : N) : string :=
  NilEmpty.string_of_uint (N.to_uint n).

(** [`mermaid-chart-${Date.now()}-${Math.random().toString(36).substr(2, 9)}`] *)
Definition uniqueId (now : N) (random36 : string) : string :=
  "mermaid-chart-" ++ string_of_N now ++ "-" ++ substring 2 9 random36.

Definition effect (p : Props) (e : Env) (s : State) : list Action :=
  if isMermaidLoaded p && mermaid e && mermaidRef s && truthy (chart p)
  then [ SetRenderError None;
         SetDiagramSvg None;
         Render (uniqueId (now e) (random36 e)) (chart p) ]
  else if negb (isMermaidLoaded p)
  then [ SetRenderError None; SetDiagramSvg None ]
  else if negb (truthy (chart p))
  then [ SetRenderError (Some "Nenhum diagrama Mermaid fornecido.");
         SetDiagramSvg None ]
  else [].

(** What the component returns. *)
Inductive View : Type :=
| ErrorMessage (text : string)
| Diagram (svg : string)
| Waiting.

Definition view (s : State) : View :=
  match renderError s, diagramSvg s with
  | Some e, Some d =>
      if truthy e then ErrorMessage e
      else if truthy d then Diagram d else Waiting
  | Some e, None => if truthy e then ErrorMessage e else Waiting
  | None, Some d => if truthy d then Diagram d else Waiting
  | None, None => Waiting
  end.

(** Only the diagram container carries [ref={mermaidRef}]: after a commit
    the ref holds an element exactly when the diagram is shown. *)
Definition commit (s : State) : State :=
  mkState (renderError s) (diagramSvg s)
          (match view s with Diagram _ => true | _ => false end).

Inductive LogEntry : Type :=
| ConsoleError (label : string) (e : Thrown).

(** The component together with the render jobs it has issued.  A job is
    named by its position in [calls]; [settled] lists the jobs whose
    promise has resolved or rejected. *)
Record World : Type := mkWorld {
  props : Props;
  state : State;
  calls : list Call;
  settled : list nat;
  console : list LogEntry
}.

Definition act (a : Action) (w : World) : World :=
  match a with
  | SetRenderError v =>
      mkWorld (props w)
              (mkState v (diagramSvg (state w)) (mermaidRef (state w)))
              (calls w) (settled w) (console w)
  | SetDiagramSvg v =>
      mkWorld (props w)
              (mkState (renderError (state w)) v (mermaidRef (state w)))
              (calls w) (settled w) (console w)
  | Render id c =>
      mkWorld (props w) (state w) (calls w ++ [mkCall id c])
              (settled w) (console w)
  end.

Definition acts (l : list Action) (w : World) : World :=
  fold_left (fun w a => act a w) l w.

Definition committed (w : World) : World :=
  mkWorld (props w) (commit (state w)) (calls w) (settled w) (console w).

Definition run_effect (p : Props) (e : Env) (w : World) : World :=
  committed
    (acts (effect p e (state w))
          (mkWorld p (state w) (calls w) (settled w) (console w))).

Definition same_deps (p q : Props) : bool :=
  String.eqb (chart p) (chart q)
  && Bool.eqb (isMermaidLoaded p) (isMermaidLoaded q).

Definition pending (job : nat) (w : World) : bool :=
  Nat.ltb job (List.length (calls w)) && negb (existsb (Nat.eqb job) (settled w)).

Inductive Event : Type :=
| Rerender (p : Props) (e : Env)
| Resolve (job : nat) (svg : string)
| Reject (job : nat) (error : Thrown).

Definition step (w : World) (ev : Event) : World :=
  match ev with
  | Rerender p e =>
      if same_deps (props w) p
      then mkWorld p (state w) (calls w) (settled w) (console w)
      else run_effect p e w
  | Resolve job svg =>
      if pending job w then
        committed
          (acts [SetDiagramSvg (Some svg)]
                (mkWorld (props w) (state w) (calls w)
                         (job :: settled w) (console w)))
      else w
  | Reject job error =>
      if pending job w then
        committed
          (acts [SetRenderError (Some "Erro ao renderizar diagrama.")]
                (mkWorld (props w) (state w) (calls w) (job :: settled w)
                         (console w
                          ++ [ConsoleError "Mermaid rendering error:"
                                           error])))
      else w
  end.

Definition run (evs : list Event) (w : World) : World :=
  fold_left step evs w.

(** First render: both cells null, nothing shown but the placeholder, then
    the effect. *)
Definition mount (p : Props) (e : Env) : World :=
  run_effect p e
    (mkWorld p (commit (mkState None None false)) [] [] []).

(** The state after the effect, before anything else happens. *)
Definition after_effect (p : Props) (e : Env) (s : State) : State :=
  state (run_effect p e (mkWorld p s [] [] [])).

(** The identifiers of the render calls among some actions. *)
Definition render_ids (l : list Action) : list string :=
  flat_map (fun a => match a with Render id _ => [id] | _ => [] end) l.

(** While the engine is not ready nothing is stored and no job exists. *)
Definition idle (w : World) : Prop :=
  calls w = [] /\ state w = mkState None None false
  /\ isMermaidLoaded (props w) = false.

(** No job has been issued, no SVG is stored, the ref is null. *)
Definition unrendered (w : World) : Prop :=
  calls w = [] /\ diagramSvg (state w) = None
  /\ mermaidRef (state w) = false.

(** Events under which [isMermaidLoaded] stays false. *)
Definition engine_not_ready (ev : Event) : bool :=
  match ev with
  | Rerender p _ => negb (isMermaidLoaded p)
  | _ => true
  end.

End Mermaid.

(** ** MermaidDiagram, older variant of the file *)

Module Older.
Import Js.

Record State : Type := mkState {
  svg : string;
  mermaidReady : bool
}.

Inductive Action : Type :=
| SetSvg (v : string)
| SetMermaidReady (v : bool)
| Render (id chart : string).

Definition effect_ready (mermaid : bool) (s : State) : list Action :=
  if mermaid && negb (mermaidReady s) then [SetMermaidReady true] else [].

Definition effect_render (chart : string) (s : State) : list Action :=
  if truthy chart && mermaidReady s
  then [Render "mermaid-svg" chart]
  else [].

Inductive View : Type :=
| Diagram (svg : string)
| Waiting.

Definition view (s : State) : View :=
  if truthy (svg s) then Diagram (svg s) else Waiting.

Record World : Type := mkWorld {
  chart : string;
  state : State;
  calls : list Mermaid.Call;
  settled : list nat;
  console : list Mermaid.LogEntry
}.

Definition act (a : Action) (w : World) : World :=
  match a with
  | SetSvg v =>
      mkWorld (chart w) (mkState v (mermaidReady (state w)))
              (calls w) (settled w) (console w)
  | SetMermaidReady v =>
      mkWorld (chart w) (mkState (svg (state w)) v)
              (calls w) (settled w) (console w)
  | Render id c =>
      mkWorld (chart w) (state w) (calls w ++ [Mermaid.mkCall id c])
              (settled w) (console w)
  end.

Definition acts (l : list Action) (w : World) : World :=
  fold_left (fun w a => act a w) l w.

(** Both effects of one render see the state of that render. *)
Definition run_effects (mermaid : bool) (w : World) : World :=
  acts (effect_ready mermaid (state w)
        ++ effect_render (chart w) (state w)) w.

(** After the first pass [mermaidReady] may have changed; it is a
    dependency of both effects, which then run once more. *)
Definition mount (c : string) (mermaid : bool) : World :=
  let w0 := mkWorld c (mkState EmptyString false) [] [] [] in
  let w1 := run_effects mermaid w0 in
  if Bool.eqb (mermaidReady (state w1)) (mermaidReady (state w0))
  then w1 else run_effects mermaid w1.

Definition pending (job : nat) (w : World) : bool :=
  Nat.ltb job (List.length (calls w)) && negb (existsb (Nat.eqb job) (settled w)).

Inductive Event : Type :=
| Rerender (chart : string)
| Resolve (job : nat) (svg : string)
| Reject (job : nat) (error : Thrown).

Definition failure_markup : string :=
  "<p style=" ++ dquote ++ "color: red;" ++ dquote
    ++ ">Erro ao renderizar diagrama.</p>".

Definition step (w : World) (ev : Event) : World :=
  match ev with
  | Rerender c =>
      if String.eqb (chart w) c then w
      else
        let w' := mkWorld c (state w) (calls w) (settled w) (console w) in
        acts (effect_render c (state w)) w'
  | Resolve job v =>
      if pending job w then
        acts [SetSvg v]
             (mkWorld (chart w) (state w) (calls w) (job :: settled w)
                      (console w))
      else w
  | Reject job error =>
      if pending job w then
        acts [SetSvg failure_markup]
             (mkWorld (chart w) (state w) (calls w) (job :: settled w)
                      (console w
                       ++ [Mermaid.ConsoleError "Mermaid rendering error:"
                                                error]))
      else w
  end.

Definition run (evs : list Event) (w : World) : World :=
  fold_left step evs w.

Definition render_ids (l : list Action) : list string :=
  flat_map (fun a => match a with Render id _ => [id] | _ => [] end) l.

End Older.

(** ** App: resource loading and the readiness gate *)

Module App.
Import Js.

Inductive Tag : Type := LinkTag | ScriptTag.

(** An element made by [document.createElement]; [ident] is its identity
    as an object, [url] its [href] or [src]. *)
Record Element : Type := mkElement {
  ident : nat;
  tag : Tag;
  url : string
}.

Inductive Parent : Type := Head | Body.

(** The part of the browser the loading effect works on: the children of
    [document.head] and [document.body] in their order, the elements that
    lie deeper below each of the two (inside one of its children), the
    number of elements created so far, the [appendChild] calls made so
    far, and whether [window.katex] and [window.mermaid] are defined. *)
Record Browser : Type := mkBrowser {
  head : list Element;
  body : list Element;
  created : nat;
  appended : list Element;
  katex : bool;
  mermaid : bool;
  head_below : list Element;
  body_below : list Element
}.

Definition children (p : Parent) (b : Browser) : list Element :=
  match p with Head => head b | Body => body b end.

Definition below (p : Parent) (b : Browser) : list Element :=
  match p with Head => head_below b | Body => body_below b end.

Definition with_children (p : Parent) (l : list Element) (b : Browser)
  : Browser :=
  match p with
  | Head => mkBrowser l (body b) (created b) (appended b) (katex b)
                      (mermaid b) (head_below b) (body_below b)
  | Body => mkBrowser (head b) l (created b) (appended b) (katex b)
                      (mermaid b) (head_below b) (body_below b)
  end.

Definition with_below (p : Parent) (l : list Element) (b : Browser)
  : Browser :=
  match p with
  | Head => mkBrowser (head b) (body b) (created b) (appended b) (katex b)
                      (mermaid b) l (body_below b)
  | Body => mkBrowser (head b) (body b) (created b) (appended b) (katex b)
                      (mermaid b) (head_below b) l
  end.

Definition same (x y : Element) : bool := Nat.eqb (ident x) (ident y).

Definition createElement (t : Tag) (u : string) : M Browser Element :=
  fun b =>
    (Normal (mkElement (created b) t u),
     mkBrowser (head b) (body b) (S (created b)) (appended b) (katex b)
               (mermaid b) (head_below b) (body_below b)).

Definition appendChild (p : Parent) (x : Element) : M Browser unit :=
  modify (fun b =>
    let b' := with_children p (children p b ++ [x]) b in
    mkBrowser (head b') (body b') (created b') (appended b' ++ [x])
              (katex b') (mermaid b') (head_below b') (body_below b')).

(** [parent.childNodes] holds the node. *)
Definition is_child (p : Parent) (x : Element) (b : Browser) : bool :=
  existsb (same x) (children p b).

(** [parent.contains(node)]: the node is a child of the parent or lies
    deeper below it. *)
Definition contains (p : Parent) (x : Element) (b : Browser) : bool :=
  is_child p x b || existsb (same x) (below p b).

(** [removeChild] throws when the node is not a child, also when it lies
    deeper below the parent.  A node sits at one place of the tree at
    most, so removing it is removing every entry with its identity. *)
Definition detach (p : Parent) (x : Element) (b : Browser) : Browser :=
  with_below p
    (filter (fun y => negb (same x y)) (below p b))
    (with_children p (filter (fun y => negb (same x y)) (children p b)) b).

Definition removeChild (p : Parent) (x : Element) : M Browser unit :=
  fun b =>
    if is_child p x b
    then (Normal tt, detach p x b)
    else (Throw (ErrorObject "NotFoundError"), b).

Definition katex_css : string :=
  "https://cdn.jsdelivr.net/npm/katex@0.16.9/dist/katex.min.css".
Definition katex_js : string :=
  "https://cdn.jsdelivr.net/npm/katex@0.16.9/dist/katex.min.js".
Definition mermaid_js : string :=
  "https://cdn.jsdelivr.net/npm/mermaid@10.9.1/dist/mermaid.min.js".
Definition tailwind_js : string := "https://cdn.tailwindcss.com".

(** The elements the cleanup closure holds on to. *)
Record Handles : Type := mkHandles {
  linkKatex : Element;
  scriptKatex : Element;
  scriptMermaid : Element;
  scriptTailwind : Element
}.

(** The body of the loading [useEffect], up to its [return]. *)
Definition effect : M Browser Handles :=
  linkKatex <- createElement LinkTag katex_css ;;
  appendChild Head linkKatex ;;;
  scriptKatex <- createElement ScriptTag katex_js ;;
  appendChild Body scriptKatex ;;;
  scriptMermaid <- createElement ScriptTag mermaid_js ;;
  appendChild Body scriptMermaid ;;;
  scriptTailwind <- createElement ScriptTag tailwind_js ;;
  appendChild Body scriptTailwind ;;;
  ret (mkHandles linkKatex scriptKatex scriptMermaid scriptTailwind).

Definition remove_if_contained (p : Parent) (x : Element)
  : M Browser unit :=
  fun b => when (contains p x b) (removeChild p x) b.

(** The function the effect returns. *)
Definition cleanup (h : Handles) : M Browser unit :=
  remove_if_contained Head (linkKatex h) ;;;
  remove_if_contained Body (scriptKatex h) ;;;
  remove_if_contained Body (scriptMermaid h) ;;;
  remove_if_contained Body (scriptTailwind h).

(** The [useState] cells of [App]. *)
Record AppState : Type := mkApp {
  currentPage : string;
  katexLoaded : bool;
  mermaidLoaded : bool;
  tailwindLoaded : bool
}.

Definition initial : AppState := mkApp "home" false false false.

(** Everything that sets a cell: the three [onload] handlers and
    [setCurrentPage]. *)
Inductive Event : Type :=
| KatexOnload
| MermaidOnload
| TailwindOnload
| SetCurrentPage (page : string).

Definition step (s : AppState) (ev : Event) : AppState :=
  match ev with
  | KatexOnload =>
      mkApp (currentPage s) true (mermaidLoaded s) (tailwindLoaded s)
  | MermaidOnload =>
      mkApp (currentPage s) (katexLoaded s) true (tailwindLoaded s)
  | TailwindOnload =>
      mkApp (currentPage s) (katexLoaded s) (mermaidLoaded s) true
  | SetCurrentPage page =>
      mkApp page (katexLoaded s) (mermaidLoaded s) (tailwindLoaded s)
  end.

Definition run (evs : list Event) (s : AppState) : AppState :=
  fold_left step evs s.

(** A script that has loaded has run: its global is defined. *)
Definition loaded (ev : Event) (b : Browser) : Browser :=
  match ev with
  | KatexOnload =>
      mkBrowser (head b) (body b) (created b) (appended b) true (mermaid b)
                (head_below b) (body_below b)
  | MermaidOnload =>
      mkBrowser (head b) (body b) (created b) (appended b) (katex b) true
                (head_below b) (body_below b)
  | _ => b
  end.

Definition loaded_all (evs : list Event) (b : Browser) : Browser :=
  fold_left (fun b ev => loaded ev b) evs b.

Inductive PageView : Type :=
| LoadingResources
| HomePage
| DirectMethod (isMermaidLoaded : bool)
| ContraexampleMethod (isMermaidLoaded : bool)
| AbsurdMethod (isMermaidLoaded : bool)
| ContrapositiveMethod (isMermaidLoaded : bool)
| InductionMethod (isMermaidLoaded : bool).

Definition renderPage (s : AppState) : PageView :=
  if negb (katexLoaded s) || negb (mermaidLoaded s)
     || negb (tailwindLoaded s)
  then LoadingResources
  else if String.eqb (currentPage s) "home" then HomePage
  else if String.eqb (currentPage s) "direct"
  then DirectMethod (mermaidLoaded s)
  else if String.eqb (currentPage s) "contraexample"
  then ContraexampleMethod (mermaidLoaded s)
  else if String.eqb (currentPage s) "absurd"
  then AbsurdMethod (mermaidLoaded s)
  else if String.eqb (currentPage s) "contrapositive"
  then ContrapositiveMethod (mermaidLoaded s)
  else if String.eqb (currentPage s) "induction"
  then InductionMethod (mermaidLoaded s)
  else HomePage.

(** The aggregate the gate stands for: the content pages are built. *)
Definition constructs_pages (s : AppState) : bool :=
  match renderPage s with
  | LoadingResources => false
  | _ => true
  end.

Definition count_url (u : string) (l : list Element) : nat :=
  List.length (filter (fun x => String.eqb (url x) u) l).

(** Identities handed out so far are below [created]. *)
Definition fresh_above (b : Browser) : Prop :=
  Forall (fun x => ident x < created b)
         (head b ++ body b ++ head_below b ++ body_below b).

Definition empty_browser : Browser :=
  mkBrowser [] [] 0 [] false false [] [].

(** The older variant of the file loads three resources and its cleanup
    removes them without looking. *)
Record HandlesOlder : Type := mkHandlesOlder {
  link : Element;
  scriptKatexOlder : Element;
  scriptMermaidOlder : Element
}.

Definition effect_older : M Browser HandlesOlder :=
  link <- createElement LinkTag katex_css ;;
  appendChild Head link ;;;
  scriptKatex <- createElement ScriptTag katex_js ;;
  appendChild Body scriptKatex ;;;
  scriptMermaid <- createElement ScriptTag mermaid_js ;;
  appendChild Body scriptMermaid ;;;
  ret (mkHandlesOlder link scriptKatex scriptMermaid).

Definition cleanup_older (h : HandlesOlder) : M Browser unit :=
  removeChild Head (link h) ;;;
  removeChild Body (scriptKatexOlder h) ;;;
  removeChild Body (scriptMermaidOlder h).

End App.

(** ** Navbar, HomePage and the clicks that reach [setCurrentPage] *)

Module Nav.

Record NavItem : Type := mkItem {
  name : string;
  id : string
}.

Definition navItems : list NavItem :=
  [ mkItem "Início" "home";
    mkItem "Método Direto" "direct";
    mkItem "Contraexemplo" "contraexample";
    mkItem "Redução por Absurdo" "absurd";
    mkItem "Contrapositivo" "contrapositive";
    mkItem "Indução" "induction" ].

(** The buttons of [HomePage]. *)
Record Method : Type := mkMethod {
  method_name : string;
  method_id : string;
  icon : string
}.

Definition methods : list Method :=
  [ mkMethod "Método Direto" "direct" "M13 10V3L4 14h7v7l9-11h-7z";
    mkMethod "Contraexemplo" "contraexample" "M6 18L18 6M6 6l12 12";
    mkMethod "Redução por Absurdo" "absurd"
      "M12 9v3m0 4h.01m-6.938 4h13.856c1.54 0 2.502-1.667 1.732-3L13.732 4c-.77-1.333-2.694-1.333-3.464 0L3.34 16c-.77 1.333.192 3 1.732 3z";
    mkMethod "Contrapositivo" "contrapositive" "M14 5l7 7m0 0l-7 7m7-7H3";
    mkMethod "Indução" "induction"
      "M9 12l2 2 4-4m6 2a9 9 0 11-18 0 9 9 0 0118 0z" ].

(** [App] with the [isOpen] cell of its [Navbar]. *)
Record State : Type := mkState {
  app : App.AppState;
  isOpen : bool
}.

Definition initial : State := mkState App.initial false.

(** What can happen to the page: a script finishes loading, the menu
    button is pressed, the n-th entry of the navigation bar is pressed,
    the n-th button of the home page is pressed. *)
Inductive Event : Type :=
| Onload (ev : App.Event)
| Toggle
| NavClick (n : nat)
| HomeClick (n : nat).

(** Only the three [onload] handlers come from the scripts. *)
Definition onload_only (ev : App.Event) : bool :=
  match ev with
  | App.SetCurrentPage _ => false
  | _ => true
  end.

Definition setCurrentPage (page : string) (s : State) : State :=
  mkState (App.step (app s) (App.SetCurrentPage page)) (isOpen s).

Definition setIsOpen (v : bool) (s : State) : State := mkState (app s) v.

(** The home page, hence its buttons, exists only while [renderPage]
    returns it; the navigation bar is always there. *)
Definition step (s : State) (ev : Event) : State :=
  match ev with
  | Onload e => if onload_only e then mkState (App.step (app s) e) (isOpen s)
                else s
  | Toggle => setIsOpen (negb (isOpen s)) s
  | NavClick n =>
      match nth_error navItems n with
      | Some item => setIsOpen false (setCurrentPage (id item) s)
      | None => s
      end
  | HomeClick n =>
      match App.renderPage (app s), nth_error methods n with
      | App.HomePage, Some m => setCurrentPage (method_id m) s
      | _, _ => s
      end
  end.

Definition run (evs : list Event) (s : State) : State :=
  fold_left step evs s.

(** [currentPage === item.id]: the entry drawn as selected. *)
Definition selected (currentPage : string) (item : NavItem) : bool :=
  String.eqb currentPage (id item).

Definition menu_class (isOpen : bool) : string :=
  if isOpen then "block" else "hidden".

End Nav.

(** ** MethodPageLayout *)

Module Layout.
Import Js.

(** [s.split(sep)] for a one-character separator. *)
Fixpoint split (sep : ascii) (s : string) : list string :=
  match s with
  | EmptyString => [EmptyString]
  | String c r =>
      if Ascii.eqb c sep then EmptyString :: split sep r
      else match split sep r with
           | h :: t => String c h :: t
           | [] => [String c EmptyString]
           end
  end.

(** One entry of the list of steps: [step.split(':')[0]] followed by a
    colon in the coloured span, then [step.split(':')[1]], which is
    undefined when the step has no colon. *)
Record StepItem : Type := mkStepItem {
  label : string;
  body : option string
}.

Definition step_item (step : string) : StepItem :=
  let parts := split ":" step in
  mkStepItem (nth 0 parts EmptyString ++ ":") (nth_error parts 1).

(** What the entry takes from the step, colon included; an undefined
    piece renders nothing. *)
Definition taken (i : StepItem) : string :=
  label i ++ match body i with Some b => b | None => EmptyString end.

(** The text of the entry: the span with the label, the space JSX keeps
    between [</span>] and the expression after it on the same line, and
    the second piece. *)
Definition text (i : StepItem) : string :=
  label i ++ " " ++ match body i with Some b => b | None => EmptyString end.

Fixpoint count_char (c : ascii) (s : string) : nat :=
  match s with
  | EmptyString => 0
  | String d r => (if Ascii.eqb d c then 1 else 0) + count_char c r
  end.

Inductive Inline : Type :=
| Text (s : string)
| Bold (s : string)
| Math (math : string) (displayMode : bool).

Inductive ReactNode : Type :=
| TextNode (s : string)
| Fragment (children : list Inline).

Definition truthy_node (n : ReactNode) : bool :=
  match n with
  | TextNode s => truthy s
  | Fragment _ => true
  end.

Record Example : Type := mkExample {
  ex_title : string;
  ex_description : string;
  ex_proof : string
}.

Record Image : Type := mkImage {
  src : string;
  alt : string;
  caption : option string
}.

Record Props : Type := mkProps {
  title : ReactNode;
  description : ReactNode;
  steps : option (list string);
  examples : option (list Example);
  diagram : option string;
  image : option Image;
  extraContent : option ReactNode;
  isMermaidLoaded : bool
}.

Inductive Block : Type :=
| Title (n : ReactNode)
| Description (n : ReactNode)
| Steps (items : list StepItem)
| Examples (l : list Example)
| DiagramBlock (p : Mermaid.Props)
| ImageBlock (i : Image)
| Extra (n : ReactNode).

(** The blocks of the page, top to bottom.  An array or an object is
    truthy whatever it holds, a string only when it is not empty. *)
Definition MethodPageLayout (p : Props) : list Block :=
  [Title (title p); Description (description p)]
  ++ match steps p with
     | Some l => [Steps (map step_item l)]
     | None => []
     end
  ++ match examples p with
     | Some l => [Examples l]
     | None => []
     end
  ++ match diagram p with
     | Some d =>
         if truthy d then [DiagramBlock (Mermaid.mkProps d (isMermaidLoaded p))]
         else []
     | None => []
     end
  ++ match image p with
     | Some i => [ImageBlock i]
     | None => []
     end
  ++ match extraContent p with
     | Some n => if truthy_node n then [Extra n] else []
     | None => []
     end.

(** The diagram components a page mounts. *)
Definition diagrams (l : list Block) : list Mermaid.Props :=
  flat_map (fun b => match b with DiagramBlock p => [p] | _ => [] end) l.

(** The page components hand [isMermaidLoaded] on to the layout; the rest
    of their props is fixed text. *)
Definition page_layout (v : App.PageView) (content : Props) : list Block :=
  match v with
  | App.LoadingResources | App.HomePage => []
  | App.DirectMethod b | App.ContraexampleMethod b | App.AbsurdMethod b
  | App.ContrapositiveMethod b | App.InductionMethod b =>
      MethodPageLayout
        (mkProps (title content) (description content) (steps content)
                 (examples content) (diagram content) (image content)
                 (extraContent content) b)
  end.

End Layout.

(** ** App, older variant: the gate *)

Module OlderApp.

Record AppState : Type := mkApp {
  currentPage : string;
  katexLoaded : bool;
  mermaidLoaded : bool
}.

Definition initial : AppState := mkApp "home" false false.

Inductive Event : Type :=
| KatexOnload
| MermaidOnload
| SetCurrentPage (page : string).

Definition step (s : AppState) (ev : Event) : AppState :=
  match ev with
  | KatexOnload => mkApp (currentPage s) true (mermaidLoaded s)
  | MermaidOnload => mkApp (currentPage s) (katexLoaded s) true
  | SetCurrentPage page => mkApp page (katexLoaded s) (mermaidLoaded s)
  end.

Definition run (evs : list Event) (s : AppState) : AppState :=
  fold_left step evs s.

Inductive PageView : Type :=
| LoadingResources
| HomePage
| DirectMethod
| ContraexampleMethod
| AbsurdMethod
| ContrapositiveMethod
| InductionMethod.

Definition renderPage (s : AppState) : PageView :=
  if negb (katexLoaded s) then LoadingResources
  else if String.eqb (currentPage s) "home" then HomePage
  else if String.eqb (currentPage s) "direct" then DirectMethod
  else if String.eqb (currentPage s) "contraexample"
  then ContraexampleMethod
  else if String.eqb (currentPage s) "absurd" then AbsurdMethod
  else if String.eqb (currentPage s) "contrapositive"
  then ContrapositiveMethod
  else if String.eqb (currentPage s) "induction" then InductionMethod
  else HomePage.

(** A method page mounts its [MermaidDiagram]. *)
Definition mounts_diagram (v : PageView) : bool :=
  match v with
  | LoadingResources | HomePage => false
  | _ => true
  end.

End OlderApp.

(** ** Histories of a mounted MermaidDiagram and of the App scope *)

Module Traces.
Import Js.

(** Rerenders that keep the engine ready. *)
Definition engine_ready (ev : Mermaid.Event) : bool :=
  match ev with
  | Mermaid.Rerender p _ => Mermaid.isMermaidLoaded p
  | _ => true
  end.

(** Rerenders that keep the engine ready and the chart non-empty: what
    [MethodPageLayout] under an open gate passes down. *)
Definition ready_chart (ev : Mermaid.Event) : bool :=
  match ev with
  | Mermaid.Rerender p _ =>
      Mermaid.isMermaidLoaded p && truthy (Mermaid.chart p)
  | _ => true
  end.

Definition no_chart_message : string := "Nenhum diagrama Mermaid fornecido.".

(** One mount of [App] followed by its unmount. *)
Definition remount (b : App.Browser) : App.Browser :=
  match App.effect b with
  | (Normal h, b1) => snd (App.cleanup h b1)
  | (Throw _, b1) => b1
  end.

(** The guarded removals of the cleanup, one after the other. *)
Fixpoint remove_each (l : list (App.Parent * App.Element))
  : M App.Browser unit :=
  match l with
  | [] => ret tt
  | (p, x) :: r => App.remove_if_contained p x ;;; remove_each r
  end.

Definition targets (h : App.Handles) : list (App.Parent * App.Element) :=
  [ (App.Head, App.linkKatex h); (App.Body, App.scriptKatex h);
    (App.Body, App.scriptMermaid h); (App.Body, App.scriptTailwind h) ].

Definition same_parent (p q : App.Parent) : bool :=
  match p, q with
  | App.Head, App.Head | App.Body, App.Body => true
  | _, _ => false
  end.

(** [y] under [p] is one of the elements to remove. *)
Definition targeted (l : list (App.Parent * App.Element)) (p : App.Parent)
           (y : App.Element) : bool :=
  existsb (fun t => same_parent (fst t) p && App.same (snd t) y) l.

(** The element is where the guard of the cleanup expects it: a child of
    the parent, or not below it at all. *)
Definition in_place (b : App.Browser) (t : App.Parent * App.Element)
  : Prop :=
  App.contains (fst t) (snd t) b = App.is_child (fst t) (snd t) b.

(** The [isMermaidLoaded] a page was built with. *)
Definition page_flag (v : App.PageView) : option bool :=
  match v with
  | App.LoadingResources | App.HomePage => None
  | App.DirectMethod b | App.ContraexampleMethod b | App.AbsurdMethod b
  | App.ContrapositiveMethod b | App.InductionMethod b => Some b
  end.

Definition last_call (l : list Mermaid.Call) : option Mermaid.Call :=
  nth_error l (List.length l - 1).

(** Two engines that answer alike whenever they are given an element and
    [throwOnError: false]. *)
Definition agree_on_elements (k k' : KaTeX.Engine) : Prop :=
  forall math prev displayMode,
    k math (Some prev) displayMode false
    = k' math (Some prev) displayMode false.

End Traces.

(** * Properties *)

Section KaTeXRendererFacts.
Import Js KaTeX.

(** What the effect does when the engine throws on a mounted span. *)
Lemma effect_raised (k : Engine) parse math dm prev log html e :
  k math (Some prev) dm false = Raised html e ->
  effect (Some k) parse math dm (mkPage (Some prev) log)
  = match errorMsg e with
    | Normal (Text text) =>
        (Normal tt,
         mkPage (Some (parse (error_markup text)))
                (log ++ [ConsoleError "KaTeX rendering error:" e]))
    | _ =>
        (Throw typeError,
         mkPage (Some html)
                (log ++ [ConsoleError "KaTeX rendering error:" e]))
    end.
Proof.
  intros H. unfold effect, try_catch, render. simpl. rewrite H.
  destruct e; reflexivity.
Qed.

Lemma effect_older_mounted (k : Engine) parse math dm prev log :
  effect_older (Some k) parse math dm (mkPage (Some prev) log)
  = effect (Some k) parse math dm (mkPage (Some prev) log).
Proof.
  unfold effect, effect_older, try_catch, render. simpl.
  destruct (k math (Some prev) dm false) as [html|html e]; [reflexivity|].
  destruct e; reflexivity.
Qed.

Lemma prefix_app s t : String.prefix s (s ++ t) = true.
Proof.
  induction s as [|c s IH]; simpl; [destruct t; reflexivity|].
  destruct (ascii_dec c c); [assumption|contradiction].
Qed.

Lemma occurs_prefix s h : String.prefix s h = true -> occurs s h = true.
Proof. intros H. destruct h; cbn [occurs]; rewrite H; reflexivity. Qed.

Lemma occurs_app_l pre s h : occurs s h = true -> occurs s (pre ++ h) = true.
Proof.
  intros H. induction pre as [|c pre IH]; [exact H|].
  change (String c pre ++ h) with (String c (pre ++ h)).
  cbn [occurs]. rewrite IH.
  destruct (String.prefix s (String c (pre ++ h))); reflexivity.
Qed.

Lemma error_markup_contains msg : occurs msg (error_markup msg) = true.
Proof.
  unfold error_markup.
  do 5 apply occurs_app_l. apply occurs_prefix, prefix_app.
Qed.

End KaTeXRendererFacts.

Section KaTeXRendererClaims.
Import Js KaTeX.

(** C3 (as amended).  When the render call throws [e] on a mounted span,
    both variants of [KaTeXRenderer] log [e] with [console.error].  If
    [e] is an [Error] with a string message, or another value that
    [String(e)] converts, they assign to the innerHTML of the span the
    string made of the red span's opening tag, the label, the failure
    text as it is (not escaped) and the closing tag: the span then holds
    what the browser's parser makes of that string, and nothing is thrown
    to the caller.  If the text of [e] cannot be produced, the [TypeError]
    of the conversion leaves the effect and the span keeps what the
    engine left.  When the engine returns, and when there is no engine,
    nothing is thrown either. *)
Theorem KaTeXRenderer_engine_failure_contained :
  forall (k : Engine) (parseHTML : string -> string) (math : string)
         (displayMode : bool) (prev : string) (log : list LogEntry),
    let p := mkPage (Some prev) log in
    let r := effect (Some k) parseHTML math displayMode p in
    effect_older (Some k) parseHTML math displayMode p = r
    /\ fst (effect None parseHTML math displayMode p) = Normal tt
    /\ (forall html,
           k math (Some prev) displayMode false = Rendered html ->
           r = (Normal tt, mkPage (Some html) log))
    /\ (forall html e,
           k math (Some prev) displayMode false = Raised html e ->
           console (snd r)
           = (log ++ [ConsoleError "KaTeX rendering error:" e])%list
           /\ (forall text,
                  errorMsg e = Normal (Text text) ->
                  fst r = Normal tt
                  /\ span (snd r) = Some (parseHTML (error_markup text))
                  /\ error_markup text
                     = ("<span style=" ++ dquote ++ "color: red;" ++ dquote
                        ++ ">Erro de renderização matemática: ")
                       ++ text ++ "</span>"
                  /\ occurs text (error_markup text) = true)
           /\ (errorMsg e = Normal NoText \/ errorMsg e = Throw typeError ->
               fst r = Throw typeError /\ span (snd r) = Some html)).
Proof.
  intros k parse math dm prev log p r.
  split; [apply effect_older_mounted|]. split; [reflexivity|]. split.
  - intros html H. subst r p. unfold effect, try_catch, render. simpl.
    rewrite H. reflexivity.
  - intros html e H. subst r p. rewrite (effect_raised _ _ _ _ _ _ _ _ H).
    split; [destruct e; reflexivity|]. split.
    + intros text Ht. rewrite Ht. cbn [fst snd span].
      repeat split. apply error_markup_contains.
    + intros [Ht|Ht]; rewrite Ht; split; reflexivity.
Qed.

Lemma KaTeXRenderer_engine_failure_contained_witness :
  let r := effect (Some toy_engine) plain "\frac{1" false
                  (mkPage (Some "old") []) in
  fst r = Normal tt
  /\ span (snd r) = Some (error_markup "KaTeX parse error: Expected '}'")
  /\ console (snd r)
     = [ConsoleError "KaTeX rendering error:"
          (ErrorObject "KaTeX parse error: Expected '}'")].
Proof.
  destruct (KaTeXRenderer_engine_failure_contained
              toy_engine plain "\frac{1" false "old" [])
    as (_ & _ & _ & H).
  destruct (H EmptyString (ErrorObject "KaTeX parse error: Expected '}'")
              eq_refl) as (Hlog & Htext & _).
  destruct (Htext "KaTeX parse error: Expected '}'" eq_refl)
    as (H1 & H2 & _).
  split; [exact H1|]. split; [exact H2 | exact Hlog].
Defined.

(** C3, counterexample.  The engine throws a bare object,
    [Object.create(null)], which is no [Error] and has no string
    conversion: [String(e)] in the catch block throws, and the
    [TypeError] leaves the effect, in both variants. *)
Lemma KaTeXRenderer_conversion_throws :
  fst (effect (Some bare_object_engine) plain "x^2" false
              (mkPage (Some EmptyString) []))
  = Throw typeError
  /\ fst (effect_older (Some bare_object_engine) plain "x^2" false
                       (mkPage (Some EmptyString) []))
     = Throw typeError.
Proof. split; reflexivity. Qed.

(** Under an engine that overwrites, the content left in the span does
    not depend on the content found. *)
Lemma effect_span_overwritten (k : Engine) parse math dm a b la lb :
  overwrites k ->
  span (run (effect (Some k) parse math dm) (mkPage (Some a) la))
  = span (run (effect (Some k) parse math dm) (mkPage (Some b) lb)).
Proof.
  intros Hk. unfold run, effect, try_catch, render. simpl.
  rewrite (Hk math dm false a b).
  destruct (k math (Some b) dm false) as [html|html e]; [reflexivity|].
  destruct e; reflexivity.
Qed.

Lemma effect_keeps_ref katex parse math dm p :
  ref_current (run (effect katex parse math dm) p) = ref_current p.
Proof.
  unfold run, effect. destruct katex as [k|]; [|reflexivity].
  destruct p as [[a|] la]; [|reflexivity].
  unfold try_catch, render. simpl.
  destruct (k math (Some a) dm false) as [html|html e]; [reflexivity|].
  destruct e; reflexivity.
Qed.

Lemma effect_span_congr katex parse math dm p q :
  (forall k : Engine, katex = Some k -> overwrites k) ->
  span p = span q ->
  span (run (effect katex parse math dm) p)
  = span (run (effect katex parse math dm) q).
Proof.
  intros Hk Hpq. destruct katex as [k|]; [|exact Hpq].
  destruct p as [[a|] la], q as [[b|] lb]; simpl in Hpq; try discriminate.
  - apply effect_span_overwritten, Hk. reflexivity.
  - reflexivity.
Qed.

Lemma effect_twice katex parse math dm p :
  (forall k : Engine, katex = Some k -> overwrites k) ->
  span (run (effect katex parse math dm)
            (run (effect katex parse math dm) p))
  = span (run (effect katex parse math dm) p).
Proof.
  intros Hk. destruct katex as [k|]; [|reflexivity].
  pose proof (effect_keeps_ref (Some k) parse math dm p) as Href.
  destruct (run (effect (Some k) parse math dm) p) as [[c|] lc] eqn:E,
           p as [[a|] la]; try discriminate Href.
  - rewrite <- E at 2. apply effect_span_overwritten, Hk. reflexivity.
  - reflexivity.
Qed.

(** C9.  With an engine that replaces the content of its target, running
    the effect of [KaTeXRenderer] N times (N at least one) with the same
    expression and display mode leaves the span with the content one run
    leaves, whether the engine accepts the expression or throws on it. *)
Theorem KaTeXRenderer_rerender_idempotent :
  forall (katex : option Engine) (parseHTML : string -> string)
         (math : string) (displayMode : bool) (p : Page) (n : nat),
    (forall k : Engine, katex = Some k -> overwrites k) ->
    span (Nat.iter (S n) (run (effect katex parseHTML math displayMode)) p)
    = span (run (effect katex parseHTML math displayMode) p).
Proof.
  intros katex parse math dm p n Hk.
  induction n as [|n IH]; [reflexivity|].
  change (Nat.iter (S (S n)) (run (effect katex parse math dm)) p)
    with (run (effect katex parse math dm)
              (Nat.iter (S n) (run (effect katex parse math dm)) p)).
  rewrite (effect_span_congr katex parse math dm _ _ Hk IH).
  apply effect_twice, Hk.
Qed.

Lemma toy_engine_overwrites : overwrites toy_engine.
Proof. intros math dm t prev prev'. reflexivity. Qed.

Lemma KaTeXRenderer_rerender_idempotent_witness :
  span (Nat.iter 3 (run (effect (Some toy_engine) plain
                                "P(x) \rightarrow Q(x)" false))
                 (mkPage (Some EmptyString) []))
  = Some "<span class=katex>P(x) \rightarrow Q(x)</span>".
Proof.
  rewrite (KaTeXRenderer_rerender_idempotent
             (Some toy_engine) plain "P(x) \rightarrow Q(x)" false
             (mkPage (Some EmptyString) []) 2).
  - reflexivity.
  - intros k [= <-]. exact toy_engine_overwrites.
Defined.

End KaTeXRendererClaims.

(** ** The identifier of a render job *)

Section UniqueId.
Import Js Mermaid.

Lemma no_dash_cons c s : c <> "-"%char -> no_dash s -> no_dash (String c s).
Proof.
  intros Hc Hs [|n]; simpl; [congruence | apply Hs].
Qed.

Lemma no_dash_nil : no_dash EmptyString.
Proof. intros n; destruct n; discriminate. Qed.

Lemma string_of_uint_no_dash d : no_dash (NilEmpty.string_of_uint d).
Proof.
  induction d; simpl; try apply no_dash_nil;
    (apply no_dash_cons; [discriminate | assumption]).
Qed.

Lemma string_of_uint_inj d d' :
  NilEmpty.string_of_uint d = NilEmpty.string_of_uint d' -> d = d'.
Proof.
  intros H. apply (f_equal NilEmpty.uint_of_string) in H.
  rewrite !NilEmpty.usu in H. congruence.
Qed.

Lemma string_of_N_inj n m : string_of_N n = string_of_N m -> n = m.
Proof.
  intros H. apply DecimalN.Unsigned.to_uint_inj, string_of_uint_inj, H.
Qed.

(** A dash-free text followed by a dash can be read back. *)
Lemma dash_split a b x y :
  no_dash a -> no_dash b ->
  a ++ String "-" x = b ++ String "-" y -> a = b /\ x = y.
Proof.
  revert b. induction a as [|c a IH]; intros [|c' b] Ha Hb H; simpl in H.
  - split; congruence.
  - exfalso. injection H as Hc _. apply (Hb 0). simpl. congruence.
  - exfalso. injection H as Hc _. apply (Ha 0). simpl. congruence.
  - injection H as Hc H.
    destruct (IH b) as [-> ->]; try assumption.
    + intros n. apply (Ha (S n)).
    + intros n. apply (Hb (S n)).
    + subst. split; reflexivity.
Qed.

Lemma append_inv_l p x y : p ++ x = p ++ y -> x = y.
Proof. induction p; simpl; intros H; [assumption|]. injection H; auto. Qed.

Lemma uniqueId_eq_iff t1 r1 t2 r2 :
  uniqueId t1 r1 = uniqueId t2 r2
  <-> t1 = t2 /\ substring 2 9 r1 = substring 2 9 r2.
Proof.
  unfold uniqueId. split.
  - intros H. apply append_inv_l in H.
    apply dash_split in H; try apply string_of_uint_no_dash.
    destruct H as [Ht Hr]. split; [apply string_of_N_inj, Ht | exact Hr].
  - intros [-> ->]. reflexivity.
Qed.

End UniqueId.

(** ** MermaidDiagram *)

Section MermaidDiagramClaims.
Import Js Mermaid.

Lemma effect_cases p e s :
  (isMermaidLoaded p && mermaid e && mermaidRef s && truthy (chart p) = true
   /\ effect p e s = [ SetRenderError None; SetDiagramSvg None;
                       Render (uniqueId (now e) (random36 e)) (chart p) ])
  \/ (isMermaidLoaded p = false
      /\ effect p e s = [ SetRenderError None; SetDiagramSvg None ])
  \/ (isMermaidLoaded p = true /\ truthy (chart p) = false
      /\ effect p e s
         = [ SetRenderError (Some "Nenhum diagrama Mermaid fornecido.");
             SetDiagramSvg None ])
  \/ (isMermaidLoaded p = true /\ truthy (chart p) = true
      /\ mermaid e && mermaidRef s = false
      /\ effect p e s = []).
Proof.
  unfold effect.
  destruct (isMermaidLoaded p), (mermaid e), (mermaidRef s),
    (truthy (chart p)); simpl; auto 10.
Qed.

(** C4 (as amended).  A render call of [MermaidDiagram] carries
    [uniqueId (Date.now()) (Math.random().toString(36))]: the identifiers
    of two render attempts are equal exactly when both attempts read the
    same clock value and drew random numbers whose base-36 texts agree on
    the nine characters kept.  The older variant of the file passes the
    constant [mermaid-svg] on every attempt. *)
Theorem MermaidDiagram_render_identifier :
  forall (p1 p2 : Props) (e1 e2 : Env) (s1 s2 : State) (id1 id2 : string),
    render_ids (effect p1 e1 s1) = [id1] ->
    render_ids (effect p2 e2 s2) = [id2] ->
    (id1 = id2
     <-> now e1 = now e2
         /\ substring 2 9 (random36 e1) = substring 2 9 (random36 e2))
    /\ (forall c s id,
           In id (Older.render_ids (Older.effect_render c s)) ->
           id = "mermaid-svg").
Proof.
  intros p1 p2 e1 e2 s1 s2 id1 id2 H1 H2. split.
  - destruct (effect_cases p1 e1 s1)
      as [[_ E1]|[[_ E1]|[[_ [_ E1]]|[_ [_ [_ E1]]]]]];
      rewrite E1 in H1; try discriminate H1.
    destruct (effect_cases p2 e2 s2)
      as [[_ E2]|[[_ E2]|[[_ [_ E2]]|[_ [_ [_ E2]]]]]];
      rewrite E2 in H2; try discriminate H2.
    simpl in H1, H2. injection H1 as <-. injection H2 as <-.
    apply uniqueId_eq_iff.
  - intros c s id. unfold Older.effect_render.
    destruct (truthy c && Older.mermaidReady s); simpl; [|tauto].
    intros [H|[]]. symmetry. exact H.
Qed.

Lemma MermaidDiagram_render_identifier_witness :
  "mermaid-chart-1700000000000-4fzyo82mv"
  <> "mermaid-chart-1700000000001-4fzyo82mv".
Proof.
  pose proof
    (MermaidDiagram_render_identifier
       (mkProps "graph TD; A-->B" true) (mkProps "graph TD; A-->B" true)
       (mkEnv true 1700000000000 "0.4fzyo82mvyr")
       (mkEnv true 1700000000001 "0.4fzyo82mvyr")
       (mkState None (Some "<svg></svg>") true)
       (mkState None (Some "<svg></svg>") true)
       "mermaid-chart-1700000000000-4fzyo82mv"
       "mermaid-chart-1700000000001-4fzyo82mv"
       eq_refl eq_refl) as [H _].
  intros E. apply H in E. destruct E as [E _]. discriminate E.
Defined.

(** C4, counterexample.  Two attempts of the older variant, for the
    charts [A] and then [B], both call the engine with [mermaid-svg]; and
    the identifier of the newer variant is the same for two different
    random draws in one millisecond when their texts agree on the nine
    characters kept. *)
Lemma MermaidDiagram_identifier_reused :
  Older.calls (Older.run [Older.Rerender "graph TD; B"]
                         (Older.mount "graph TD; A" true))
  = [ mkCall "mermaid-svg" "graph TD; A";
      mkCall "mermaid-svg" "graph TD; B" ]
  /\ "0.4fzyo82mvyr1" <> "0.4fzyo82mvyr2"
  /\ uniqueId 1700000000000 "0.4fzyo82mvyr1"
     = uniqueId 1700000000000 "0.4fzyo82mvyr2".
Proof.
  split; [reflexivity|]. split; [discriminate|reflexivity].
Qed.

(** C5 (as amended).  With the engine not ready the effect clears the
    stored SVG and the stored error, issues no render call and the
    component shows the waiting placeholder.  With the engine ready and an
    empty chart it clears the stored SVG, issues no render call, and
    stores and shows the message [Nenhum diagrama Mermaid fornecido.] *)
Theorem MermaidDiagram_idle_cases :
  forall (c : string) (e : Env) (s : State),
    (let s' := after_effect (mkProps c false) e s in
     renderError s' = None /\ diagramSvg s' = None /\ view s' = Waiting
     /\ render_ids (effect (mkProps c false) e s) = [])
    /\ (let s' := after_effect (mkProps EmptyString true) e s in
        renderError s' = Some "Nenhum diagrama Mermaid fornecido."
        /\ diagramSvg s' = None
        /\ view s' = ErrorMessage "Nenhum diagrama Mermaid fornecido."
        /\ render_ids (effect (mkProps EmptyString true) e s) = []).
Proof.
  intros c e s. split.
  - unfold after_effect, run_effect, effect. simpl.
    repeat split; reflexivity.
  - unfold after_effect, run_effect, effect. simpl.
    destruct (mermaid e), (mermaidRef s); simpl; repeat split; reflexivity.
Qed.

(** C5, counterexample.  Mounted with an empty chart and the engine
    ready, the component shows an error message, not the placeholder. *)
Lemma MermaidDiagram_empty_chart_shows_error :
  let w := mount (mkProps EmptyString true) (mkEnv true 0 "0.5") in
  view (state w) = ErrorMessage "Nenhum diagrama Mermaid fornecido."
  /\ view (state w) <> Waiting.
Proof. split; [reflexivity | discriminate]. Qed.

Lemma run_app evs ev w : run (evs ++ [ev]) w = step (run evs w) ev.
Proof. unfold run. rewrite fold_left_app. reflexivity. Qed.

Lemma idle_step w ev :
  engine_not_ready ev = true -> idle w -> idle (step w ev).
Proof.
  intros Hev (Hc & Hs & Hp).
  destruct ev as [p e|job svg|job err]; simpl in *.
  - apply negb_true_iff in Hev.
    destruct (same_deps (props w) p); [repeat split; assumption|].
    unfold run_effect, effect. rewrite Hev, Hs. simpl.
    repeat split; assumption.
  - unfold pending. rewrite Hc.
    destruct job; simpl; repeat split; assumption.
  - unfold pending. rewrite Hc. simpl.
    destruct job; simpl; repeat split; assumption.
Qed.

Lemma idle_run evs w :
  forallb engine_not_ready evs = true -> idle w -> idle (run evs w).
Proof.
  revert w. induction evs as [|ev evs IH]; intros w H Hw; [exact Hw|].
  simpl in H. apply andb_true_iff in H as [H1 H2].
  simpl. apply IH; [exact H2 | apply idle_step; assumption].
Qed.

Lemma idle_mount c e : idle (mount (mkProps c false) e).
Proof. repeat split. Qed.

(** C6.  With [isMermaidLoaded] false the effect issues no render call
    for any chart, in any state, and leaves the waiting placeholder on
    display; and a component mounted with the engine not ready has issued
    no render call and shows the placeholder for as long as the engine
    stays not ready. *)
Theorem MermaidDiagram_engine_not_ready :
  forall (c : string) (e : Env),
    (forall s : State,
        render_ids (effect (mkProps c false) e s) = []
        /\ view (after_effect (mkProps c false) e s) = Waiting)
    /\ (forall evs : list Event,
           forallb engine_not_ready evs = true ->
           let w := run evs (mount (mkProps c false) e) in
           calls w = [] /\ view (state w) = Waiting).
Proof.
  intros c e. split.
  - intros s. split; reflexivity.
  - intros evs Hevs w.
    destruct (idle_run evs _ Hevs (idle_mount c e)) as (Hc & Hs & _).
    subst w. rewrite Hs. split; [exact Hc | reflexivity].
Qed.

Lemma MermaidDiagram_engine_not_ready_witness :
  let w := run [ Rerender (mkProps "graph TD; B" false)
                          (mkEnv true 1700000000000 "0.4fzyo82mvyr");
                 Resolve 0 "<svg></svg>" ]
               (mount (mkProps "graph TD; A" false)
                      (mkEnv false 1700000000000 "0.4fzyo82mvyr")) in
  calls w = [] /\ view (state w) = Waiting.
Proof.
  exact (proj2 (MermaidDiagram_engine_not_ready
                  "graph TD; A" (mkEnv false 1700000000000 "0.4fzyo82mvyr"))
               [ Rerender (mkProps "graph TD; B" false)
                          (mkEnv true 1700000000000 "0.4fzyo82mvyr");
                 Resolve 0 "<svg></svg>" ]
               eq_refl).
Defined.

(** C10.  With the engine ready and a chart that is not empty the effect
    does not get to its render branch, because the branch also asks for
    [mermaidRef.current] and the ref sits on the container that is shown
    only once an SVG is stored.  The component is mounted with an empty
    chart and shows the message for it; the chart then becomes a diagram
    source: the effect does nothing, no render call is issued, the stored
    message is not cleared and is still what the component shows.
    Mounted with the diagram source at once, it issues no call either. *)
Theorem MermaidDiagram_attempt_not_started :
  forall (e e' : Env),
    let p := mkProps "graph TD; A-->B" true in
    let w0 := mount (mkProps EmptyString true) e in
    let w := step w0 (Rerender p e') in
    view (state w0) = ErrorMessage "Nenhum diagrama Mermaid fornecido."
    /\ same_deps (props w0) p = false
    /\ truthy (chart p) = true
    /\ effect p e' (state w0) = []
    /\ calls w = []
    /\ renderError (state w) = Some "Nenhum diagrama Mermaid fornecido."
    /\ view (state w) = ErrorMessage "Nenhum diagrama Mermaid fornecido."
    /\ calls (mount p e) = []
    /\ view (state (mount p e)) = Waiting.
Proof.
  intros [m n r] [m' n' r']. cbv zeta.
  destruct m, m'; repeat split; reflexivity.
Qed.

Lemma unrendered_commit re :
  commit (mkState re None false) = mkState re None false.
Proof. unfold commit, view. simpl. destruct re as [x|]; [destruct (truthy x)|]; reflexivity. Qed.

Lemma unrendered_effect p e w : unrendered w -> unrendered (run_effect p e w).
Proof.
  intros (Hc & Hs & Hr).
  destruct (state w) as [re ds mr] eqn:Est. simpl in Hs, Hr. subst ds mr.
  unfold run_effect. rewrite Est.
  destruct (effect_cases p e (mkState re None false))
    as [[C _]|[[_ E]|[[_ [_ E]]|[_ [_ [_ E]]]]]].
  - simpl in C. rewrite andb_false_r in C. discriminate C.
  - rewrite E. simpl. repeat split; assumption.
  - rewrite E. simpl. repeat split; assumption.
  - rewrite E. simpl. unfold committed. simpl.
    rewrite unrendered_commit. repeat split; assumption.
Qed.

Lemma unrendered_step w ev : unrendered w -> unrendered (step w ev).
Proof.
  intros H. pose proof H as (Hc & Hs & Hr).
  destruct ev as [p e|job svg|job err]; simpl.
  - destruct (same_deps (props w) p);
      [repeat split; assumption | apply unrendered_effect, H].
  - unfold pending. rewrite Hc. destruct job; simpl; repeat split; assumption.
  - unfold pending. rewrite Hc. destruct job; simpl; repeat split; assumption.
Qed.

(** X18.  The container that carries the ref is mounted only once an SVG
    is stored, and an SVG is stored only by a render call, which wants the
    ref: after mounting, whatever happens, no render call is issued and
    no diagram is shown. *)
Lemma MermaidDiagram_never_issues_render p e evs :
  let w := run evs (mount p e) in
  calls w = [] /\ forall svg, view (state w) <> Diagram svg.
Proof.
  assert (H : unrendered (run evs (mount p e))).
  { induction evs as [|ev evs IH] using rev_ind.
    - apply unrendered_effect. repeat split.
    - rewrite run_app. apply unrendered_step, IH. }
  destruct H as (Hc & Hs & _). split; [exact Hc|].
  intros svg. unfold view. rewrite Hs.
  destruct (renderError _) as [x|]; [destruct (truthy x)|]; discriminate.
Qed.

(** C1 (as amended).  Neither variant checks whether a job has been
    superseded: the settlement of any job still pending is applied when it
    arrives, whatever the chart is by then.  A resolution stores its SVG
    (and, with no error stored, shows it); a rejection is logged and
    stores and shows the failure message.  What is on display is the
    result of the job that settled last. *)
Theorem MermaidDiagram_settlement_applied :
  (forall (w : World) (job : nat) (svg : string),
      pending job w = true ->
      let w' := step w (Resolve job svg) in
      diagramSvg (state w') = Some svg
      /\ renderError (state w') = renderError (state w)
      /\ (renderError (state w) = None -> truthy svg = true ->
          view (state w') = Diagram svg))
  /\ (forall (w : World) (job : nat) (err : Thrown),
         pending job w = true ->
         let w' := step w (Reject job err) in
         renderError (state w') = Some "Erro ao renderizar diagrama."
         /\ view (state w') = ErrorMessage "Erro ao renderizar diagrama."
         /\ console w'
            = (console w
               ++ [ConsoleError "Mermaid rendering error:" err])%list)
  /\ (forall (w : Older.World) (job : nat) (svg : string),
         Older.pending job w = true ->
         Older.svg (Older.state (Older.step w (Older.Resolve job svg)))
         = svg)
  /\ (forall (w : Older.World) (job : nat) (err : Thrown),
         Older.pending job w = true ->
         Older.svg (Older.state (Older.step w (Older.Reject job err)))
         = Older.failure_markup).
Proof.
  split; [|split; [|split]].
  - intros w job svg H. simpl. rewrite H. simpl. repeat split.
    intros Herr Hsvg. unfold view. simpl. rewrite Herr, Hsvg. reflexivity.
  - intros w job err H. simpl. rewrite H. simpl. repeat split.
    unfold view. simpl. destruct (diagramSvg (state w)); reflexivity.
  - intros w job svg H. simpl. rewrite H. reflexivity.
  - intros w job err H. simpl. rewrite H. reflexivity.
Qed.

Lemma MermaidDiagram_settlement_applied_witness :
  let w := Older.run [Older.Rerender "graph TD; B"]
                     (Older.mount "graph TD; A" true) in
  Older.chart w = "graph TD; B"
  /\ Older.svg (Older.state (Older.step w (Older.Resolve 0 "<svg>A</svg>")))
     = "<svg>A</svg>"
  /\ view (state (step (mkWorld (mkProps "graph TD; B" true)
                                (mkState None None false)
                                [mkCall "mermaid-chart-1-4fzyo82mv"
                                        "graph TD; A"] [] [])
                       (Resolve 0 "<svg>A</svg>")))
     = Diagram "<svg>A</svg>".
Proof.
  destruct MermaidDiagram_settlement_applied as [H1 [_ [H3 _]]].
  split; [reflexivity|]. split.
  - apply (H3 (Older.run [Older.Rerender "graph TD; B"]
                         (Older.mount "graph TD; A" true))
              0 "<svg>A</svg>"). reflexivity.
  - apply (H1 (mkWorld (mkProps "graph TD; B" true)
                       (mkState None None false)
                       [mkCall "mermaid-chart-1-4fzyo82mv" "graph TD; A"]
                       [] [])
              0 "<svg>A</svg>"); reflexivity.
Defined.

(** C1, counterexample.  The older variant is mounted with chart [A]; the
    chart changes to [B] and then to [C] before any job settles.  The job
    for [C] resolves, then the job for [A]: the diagram of [A] is on
    display although the chart is [C]. *)
Lemma MermaidDiagram_stale_result_displayed :
  let w := Older.run [ Older.Rerender "graph TD; B";
                       Older.Rerender "graph TD; C";
                       Older.Resolve 2 "<svg>C</svg>";
                       Older.Resolve 0 "<svg>A</svg>" ]
                     (Older.mount "graph TD; A" true) in
  map call_chart (Older.calls w)
  = ["graph TD; A"; "graph TD; B"; "graph TD; C"]
  /\ Older.chart w = "graph TD; C"
  /\ Older.view (Older.state w) = Older.Diagram "<svg>A</svg>".
Proof. repeat split. Qed.

End MermaidDiagramClaims.

(** ** App: the readiness gate *)

Section ReadinessGate.
Import App.

Lemma constructs_pages_iff s :
  constructs_pages s = true
  <-> katexLoaded s = true /\ mermaidLoaded s = true
      /\ tailwindLoaded s = true.
Proof.
  unfold constructs_pages, renderPage.
  destruct (katexLoaded s), (mermaidLoaded s), (tailwindLoaded s); simpl;
    try (split; [discriminate | intros (?&?&?); discriminate]).
  split; [auto|intros _].
  repeat match goal with
         | |- context [if String.eqb ?a ?b then _ else _] =>
             destruct (String.eqb a b)
         end; reflexivity.
Qed.

Lemma signals_step s ev :
  (katexLoaded s = true -> katexLoaded (step s ev) = true)
  /\ (mermaidLoaded s = true -> mermaidLoaded (step s ev) = true)
  /\ (tailwindLoaded s = true -> tailwindLoaded (step s ev) = true).
Proof. destruct ev; simpl; auto. Qed.

Lemma signals_run evs s :
  (katexLoaded s = true -> katexLoaded (run evs s) = true)
  /\ (mermaidLoaded s = true -> mermaidLoaded (run evs s) = true)
  /\ (tailwindLoaded s = true -> tailwindLoaded (run evs s) = true).
Proof.
  revert s. induction evs as [|ev evs IH]; intros s; [simpl; auto|].
  simpl. destruct (IH (step s ev)) as (A & B & C).
  destruct (signals_step s ev) as (A' & B' & C'). auto.
Qed.

(** C2.  [renderPage] builds a content page instead of the loading
    indicator exactly when [katexLoaded], [mermaidLoaded] and
    [tailwindLoaded] are all true.  The gate starts closed; no handler
    sets a signal back to false, so a signal that is true stays true and
    the gate, once open, stays open whatever handlers run afterwards. *)
Theorem App_readiness_gate :
  forall s : AppState,
    (constructs_pages s = true
     <-> katexLoaded s = true /\ mermaidLoaded s = true
         /\ tailwindLoaded s = true)
    /\ constructs_pages initial = false
    /\ (forall evs : list Event,
           (katexLoaded s = true -> katexLoaded (run evs s) = true)
           /\ (mermaidLoaded s = true -> mermaidLoaded (run evs s) = true)
           /\ (tailwindLoaded s = true
               -> tailwindLoaded (run evs s) = true)
           /\ (constructs_pages s = true
               -> constructs_pages (run evs s) = true)).
Proof.
  intros s. split; [apply constructs_pages_iff|]. split; [reflexivity|].
  intros evs. destruct (signals_run evs s) as (A & B & C).
  repeat split; try assumption.
  rewrite !constructs_pages_iff. intros (?&?&?). auto.
Qed.

Lemma App_readiness_gate_witness :
  constructs_pages
    (run [SetCurrentPage "induction"; KatexOnload; SetCurrentPage "nowhere"]
         (mkApp "direct" true true true)) = true.
Proof.
  apply (App_readiness_gate (mkApp "direct" true true true)).
  reflexivity.
Defined.

End ReadinessGate.

(** ** App: injecting and releasing the external resources *)

Section ResourceLoading.
Import Js App Traces.
Local Open Scope list_scope.

Lemma filter_fresh (x : Element) (l : list Element) :
  Forall (fun y => ident y < ident x) l ->
  filter (fun y => negb (same x y)) l = l.
Proof.
  induction 1 as [|y l Hy _ IH]; [reflexivity|].
  simpl. unfold same at 1.
  replace (Nat.eqb (ident x) (ident y)) with false
    by (symmetry; apply Nat.eqb_neq; lia).
  simpl. rewrite IH. reflexivity.
Qed.

Lemma filter_absent (x : Element) (l : list Element) :
  existsb (same x) l = false -> filter (fun y => negb (same x y)) l = l.
Proof.
  induction l as [|y l IH]; [reflexivity|].
  simpl. intros H. apply orb_false_iff in H as [H1 H2].
  rewrite H1. simpl. rewrite IH by assumption. reflexivity.
Qed.

Lemma existsb_filtered (x : Element) (l : list Element) :
  existsb (same x) (filter (fun y => negb (same x y)) l) = false.
Proof.
  induction l as [|y l IH]; [reflexivity|].
  simpl. destruct (same x y) eqn:E; simpl; [assumption|].
  rewrite E. assumption.
Qed.

Lemma existsb_filter_other (x y : Element) (l : list Element) :
  same y x = false ->
  existsb (same x) (filter (fun z => negb (same y z)) l)
  = existsb (same x) l.
Proof.
  intros H. induction l as [|z l IH]; [reflexivity|].
  simpl. destruct (same y z) eqn:E; simpl; rewrite IH; [|reflexivity].
  replace (same x z) with false; [reflexivity|].
  unfold same in *. apply Nat.eqb_eq in E. apply Nat.eqb_neq in H.
  symmetry. apply Nat.eqb_neq. lia.
Qed.

Lemma existsb_filter_false {A} (f g : A -> bool) (l : list A) :
  existsb f l = false -> existsb f (filter g l) = false.
Proof.
  induction l as [|y l IH]; [reflexivity|].
  simpl. intros H. apply orb_false_iff in H as [H1 H2].
  destruct (g y); simpl; [rewrite H1|]; auto.
Qed.

(** What [detach] leaves under each parent. *)
Lemma detach_children q x p b :
  children p (detach q x b)
  = if same_parent q p
    then filter (fun y => negb (same x y)) (children p b)
    else children p b.
Proof. destruct q, p; reflexivity. Qed.

Lemma detach_below q x p b :
  below p (detach q x b)
  = if same_parent q p
    then filter (fun y => negb (same x y)) (below p b)
    else below p b.
Proof. destruct q, p; reflexivity. Qed.

Lemma detach_frame q x b :
  created (detach q x b) = created b
  /\ appended (detach q x b) = appended b
  /\ katex (detach q x b) = katex b
  /\ mermaid (detach q x b) = mermaid b.
Proof. destruct q; repeat split. Qed.

(** The three ways a guarded removal can go: the element is a child and
    is removed; it is not below the parent and nothing happens; it lies
    deeper below the parent, the guard lets it pass and [removeChild]
    throws. *)
Lemma remove_if_contained_cases p x b :
  (is_child p x b = true
   /\ remove_if_contained p x b = (Normal tt, detach p x b))
  \/ (contains p x b = false
      /\ remove_if_contained p x b = (Normal tt, b))
  \/ (contains p x b = true /\ is_child p x b = false
      /\ remove_if_contained p x b
         = (Throw (ErrorObject "NotFoundError"), b)).
Proof.
  unfold remove_if_contained, when, removeChild, contains, ret.
  destruct (is_child p x b) eqn:E; simpl.
  - left. rewrite E. split; reflexivity.
  - destruct (existsb (same x) (below p b)); rewrite ?E.
    + right. right. repeat split.
    + right. left. split; reflexivity.
Qed.

Lemma contains_detached p x b : contains p x (detach p x b) = false.
Proof.
  unfold contains, is_child. rewrite detach_children, detach_below.
  destruct p; simpl; rewrite !existsb_filtered; reflexivity.
Qed.

Lemma contains_detach_false q y p x b :
  contains p x b = false -> contains p x (detach q y b) = false.
Proof.
  unfold contains, is_child. intros H. apply orb_false_iff in H as [H1 H2].
  rewrite detach_children, detach_below.
  destruct (same_parent q p); [|rewrite H1, H2; reflexivity].
  rewrite !existsb_filter_false by assumption. reflexivity.
Qed.

Lemma detach_other q y p x b :
  same y x = false ->
  is_child p x (detach q y b) = is_child p x b
  /\ contains p x (detach q y b) = contains p x b.
Proof.
  intros H. unfold contains, is_child.
  rewrite detach_children, detach_below.
  destruct (same_parent q p); [|auto].
  rewrite !existsb_filter_other by assumption. auto.
Qed.

Lemma remove_each_cons p x r b :
  remove_each ((p, x) :: r) b
  = match remove_if_contained p x b with
    | (Normal _, b') => remove_each r b'
    | (Throw e, b') => (Throw e, b')
    end.
Proof. reflexivity. Qed.

Lemma cleanup_each h b : cleanup h b = remove_each (targets h) b.
Proof.
  unfold cleanup, targets. rewrite !remove_each_cons. unfold bind.
  destruct (remove_if_contained Head (linkKatex h) b) as [o1 b1].
  destruct o1 as [u1|e1]; [|reflexivity].
  rewrite !remove_each_cons.
  destruct (remove_if_contained Body (scriptKatex h) b1) as [o2 b2].
  destruct o2 as [u2|e2]; [|reflexivity].
  rewrite !remove_each_cons.
  destruct (remove_if_contained Body (scriptMermaid h) b2) as [o3 b3].
  destruct o3 as [u3|e3]; [|reflexivity].
  rewrite !remove_each_cons.
  destruct (remove_if_contained Body (scriptTailwind h) b3) as [o4 b4].
  destruct o4 as [[]|e4]; reflexivity.
Qed.

Lemma remove_each_frame l b :
  created (snd (remove_each l b)) = created b
  /\ appended (snd (remove_each l b)) = appended b
  /\ katex (snd (remove_each l b)) = katex b
  /\ mermaid (snd (remove_each l b)) = mermaid b.
Proof.
  revert b. induction l as [|[p x] r IH]; intros b; [repeat split|].
  rewrite remove_each_cons.
  destruct (remove_if_contained_cases p x b)
    as [[_ E]|[[_ E]|[_ [_ E]]]]; rewrite E; [|apply IH|repeat split].
  destruct (IH (detach p x b)) as (A & B & C & D).
  destruct (detach_frame p x b) as (A' & B' & C' & D').
  rewrite A, B, C, D. auto.
Qed.

(** Removals take away and never add. *)
Lemma remove_each_absent l p x b :
  contains p x b = false -> contains p x (snd (remove_each l b)) = false.
Proof.
  revert b. induction l as [|[q y] r IH]; intros b H; [exact H|].
  rewrite remove_each_cons.
  destruct (remove_if_contained_cases q y b)
    as [[_ E]|[[_ E]|[_ [_ E]]]]; rewrite E; [|apply IH, H|exact H].
  apply IH, contains_detach_false, H.
Qed.

(** An element that is none of those to remove stays where it is. *)
Lemma remove_each_spares l p x b :
  Forall (fun t => same (snd t) x = false) l ->
  is_child p x (snd (remove_each l b)) = is_child p x b
  /\ contains p x (snd (remove_each l b)) = contains p x b.
Proof.
  intros H. revert b. induction H as [|[q y] r Hy _ IH]; intros b; [auto|].
  rewrite remove_each_cons.
  destruct (remove_if_contained_cases q y b)
    as [[_ E]|[[_ E]|[_ [_ E]]]]; rewrite E; [|apply IH|auto].
  destruct (IH (detach q y b)) as [A B].
  destruct (detach_other q y p x b Hy) as [A' B'].
  rewrite A, B. auto.
Qed.

(** Running the removals again repeats their outcome and changes nothing
    further. *)
Lemma remove_each_twice l b :
  remove_each l (snd (remove_each l b)) = remove_each l b.
Proof.
  revert b. induction l as [|[q y] r IH]; intros b; [reflexivity|].
  rewrite (remove_each_cons q y r b).
  destruct (remove_if_contained_cases q y b)
    as [[_ E]|[[Hc E]|[_ [_ E]]]]; rewrite E.
  - rewrite remove_each_cons.
    destruct (remove_if_contained_cases q y
                (snd (remove_each r (detach q y b))))
      as [[Hk _]|[[_ E2]|[Hk _]]].
    + pose proof (remove_each_absent r q y _ (contains_detached q y b)) as A.
      unfold contains in A. rewrite Hk in A. discriminate A.
    + rewrite E2. apply IH.
    + rewrite (remove_each_absent r q y _ (contains_detached q y b)) in Hk.
      discriminate Hk.
  - rewrite remove_each_cons.
    destruct (remove_if_contained_cases q y (snd (remove_each r b)))
      as [[Hk _]|[[_ E2]|[Hk _]]].
    + pose proof (remove_each_absent r q y _ Hc) as A.
      unfold contains in A. rewrite Hk in A. discriminate A.
    + rewrite E2. apply IH.
    + rewrite (remove_each_absent r q y _ Hc) in Hk. discriminate Hk.
  - cbn [snd]. rewrite remove_each_cons, E. reflexivity.
Qed.

(** With every element in its place the removals all succeed. *)
Lemma in_place_detach q y b t :
  in_place b t -> in_place (detach q y b) t.
Proof.
  destruct t as [p x]. unfold in_place. cbn [fst snd]. intros H.
  destruct (same y x) eqn:E.
  - unfold contains, is_child in *.
    rewrite detach_children, detach_below.
    destruct (same_parent q p); [|exact H].
    assert (S : forall l, existsb (same x)
                            (filter (fun z => negb (same y z)) l) = false).
    { intros l. induction l as [|z l IH]; [reflexivity|].
      simpl. destruct (same y z) eqn:Ez; simpl; [exact IH|].
      rewrite IH, orb_false_r. unfold same in *.
      apply Nat.eqb_eq in E. apply Nat.eqb_neq in Ez.
      apply Nat.eqb_neq. lia. }
    rewrite !S. reflexivity.
  - destruct (detach_other q y p x b E) as [A B]. rewrite A, B. exact H.
Qed.

Lemma remove_each_in_place l b :
  Forall (in_place b) l -> fst (remove_each l b) = Normal tt.
Proof.
  revert b. induction l as [|[q y] r IH]; intros b H; [reflexivity|].
  inversion H as [|t r' Ht Hr]; subst.
  rewrite remove_each_cons.
  destruct (remove_if_contained_cases q y b)
    as [[_ E]|[[_ E]|[Hc [Hk _]]]].
  - rewrite E. apply IH.
    eapply Forall_impl; [|exact Hr]. intros t. apply in_place_detach.
  - rewrite E. apply IH, Hr.
  - unfold in_place in Ht. cbn [fst snd] in Ht. congruence.
Qed.

Lemma filter_id_older {A} (f : A -> bool) (l : list A) :
  (forall x, In x l -> f x = true) -> filter f l = l.
Proof.
  induction l as [|y l IH]; intros H; [reflexivity|].
  simpl. rewrite (H y (or_introl eq_refl)), IH; [reflexivity|].
  intros x Hx. apply H. right. exact Hx.
Qed.

Lemma filter_filter {A} (f g : A -> bool) (l : list A) :
  filter f (filter g l) = filter (fun y => g y && f y) l.
Proof.
  induction l as [|y l IH]; [reflexivity|].
  simpl. destruct (g y); simpl; [destruct (f y)|]; rewrite IH; reflexivity.
Qed.

(** After removals that all succeeded, each parent holds what it held,
    less the elements that were to be removed from it. *)
Lemma remove_each_result l b :
  fst (remove_each l b) = Normal tt ->
  forall p,
    children p (snd (remove_each l b))
    = filter (fun y => negb (targeted l p y)) (children p b)
    /\ below p (snd (remove_each l b))
       = filter (fun y => negb (targeted l p y)) (below p b).
Proof.
  revert b. induction l as [|[q x] r IH]; intros b H p.
  - assert (T : forall l : list Element,
               filter (fun y => negb (targeted [] p y)) l = l).
    { intros l. induction l as [|y l IHl]; [reflexivity|].
      simpl. f_equal. exact IHl. }
    rewrite !T. split; reflexivity.
  - rewrite remove_each_cons in *.
    destruct (remove_if_contained_cases q x b)
      as [[_ E]|[[Hc E]|[_ [_ E]]]]; rewrite E in *; [| |discriminate H].
    + destruct (IH _ H p) as [A B]. rewrite A, B.
      rewrite detach_children, detach_below. cbn [targeted existsb fst snd].
      destruct (same_parent q p); simpl.
      * rewrite !filter_filter. split; apply filter_ext; intros y;
          rewrite negb_orb; reflexivity.
      * split; reflexivity.
    + destruct (IH _ H p) as [A B]. rewrite A, B.
      cbn [targeted existsb fst snd].
      unfold contains, is_child in Hc.
      apply orb_false_iff in Hc as [Hc1 Hc2].
      destruct (same_parent q p) eqn:Ep; simpl; [|split; reflexivity].
      assert (Q : children q b = children p b /\ below q b = below p b)
        by (destruct q, p; try discriminate Ep; auto).
      destruct Q as [Q1 Q2]. rewrite Q1 in Hc1. rewrite Q2 in Hc2.
      split; apply filter_ext_in; intros y Hy.
      * replace (same x y) with false; [reflexivity|].
        symmetry. apply not_true_is_false. intros Hs.
        assert (existsb (same x) (children p b) = true)
          by (apply existsb_exists; eauto).
        congruence.
      * replace (same x y) with false; [reflexivity|].
        symmetry. apply not_true_is_false. intros Hs.
        assert (existsb (same x) (below p b) = true)
          by (apply existsb_exists; eauto).
        congruence.
Qed.

Lemma effect_eq (b : Browser) :
  let n := created b in
  let l := mkElement n LinkTag katex_css in
  let sk := mkElement (S n) ScriptTag katex_js in
  let sm := mkElement (S (S n)) ScriptTag mermaid_js in
  let st := mkElement (S (S (S n))) ScriptTag tailwind_js in
  effect b
  = (Normal (mkHandles l sk sm st),
     mkBrowser (head b ++ [l]) (body b ++ [sk; sm; st]) (S (S (S (S n))))
               (appended b ++ [l; sk; sm; st]) (katex b) (mermaid b)
               (head_below b) (body_below b)).
Proof.
  destruct b as [hd bd n ap k m hb bb].
  cbv [effect bind createElement appendChild modify ret with_children
       children head body created appended katex mermaid head_below
       body_below].
  rewrite <- !app_assoc. reflexivity.
Qed.

Lemma loaded_all_keeps evs b :
  head (loaded_all evs b) = head b /\ body (loaded_all evs b) = body b
  /\ created (loaded_all evs b) = created b
  /\ appended (loaded_all evs b) = appended b
  /\ head_below (loaded_all evs b) = head_below b
  /\ body_below (loaded_all evs b) = body_below b.
Proof.
  revert b. induction evs as [|ev evs IH]; intros b; [repeat split|].
  simpl. destruct (IH (loaded ev b)) as (A & B & C & D & E & F).
  rewrite A, B, C, D, E, F. destruct ev; repeat split.
Qed.

Lemma filter_app_fresh (x : Element) (l r : list Element) :
  Forall (fun y => ident y < ident x) l ->
  filter (fun y => negb (same x y)) (l ++ r)
  = (l ++ filter (fun y => negb (same x y)) r)%list.
Proof. intros H. rewrite filter_app, (filter_fresh x l H). reflexivity. Qed.

Lemma filter_self (x : Element) (r : list Element) :
  filter (fun y => negb (same x y)) (x :: r)
  = filter (fun y => negb (same x y)) r.
Proof. cbn [filter]. unfold same at 1. rewrite Nat.eqb_refl. reflexivity. Qed.

Lemma filter_other (x y : Element) (r : list Element) :
  ident x <> ident y ->
  filter (fun z => negb (same x z)) (y :: r)
  = y :: filter (fun z => negb (same x z)) r.
Proof.
  intros H. cbn [filter]. unfold same at 1.
  apply Nat.eqb_neq in H. rewrite H. reflexivity.
Qed.

Lemma Forall_lt_weaken (l : list Element) n m :
  n <= m -> Forall (fun y => ident y < n) l ->
  Forall (fun y => ident y < m) l.
Proof.
  intros Hnm H. eapply Forall_impl; [|exact H]. simpl. intros; lia.
Qed.

(** Elements created before are older than a new one. *)
Ltac older := eapply Forall_lt_weaken; [|eassumption]; simpl; lia.

Lemma targeted_self l p x : In (p, x) l -> targeted l p x = true.
Proof.
  intros H. unfold targeted. apply existsb_exists. exists (p, x).
  split; [exact H|]. cbn [fst snd]. unfold same. rewrite Nat.eqb_refl.
  destruct p; reflexivity.
Qed.

Lemma filter_targets_fresh l p n (L : list Element) :
  Forall (fun y => ident y < n) L ->
  Forall (fun t => n <= ident (snd t)) l ->
  filter (fun y => negb (targeted l p y)) L = L.
Proof.
  intros HL Hl. apply filter_id_older. intros y Hy.
  rewrite Forall_forall in HL, Hl. specialize (HL y Hy).
  apply negb_true_iff, not_true_is_false. intros T.
  unfold targeted in T. apply existsb_exists in T as [t [Ht T]].
  apply andb_true_iff in T as [_ T]. unfold same in T.
  apply Nat.eqb_eq in T. specialize (Hl t Ht). lia.
Qed.

Lemma fresh_parts (b : Browser) :
  fresh_above b ->
  Forall (fun x => ident x < created b) (head b)
  /\ Forall (fun x => ident x < created b) (body b)
  /\ Forall (fun x => ident x < created b) (head_below b)
  /\ Forall (fun x => ident x < created b) (body_below b).
Proof.
  unfold fresh_above. intros H.
  apply Forall_app in H as [H1 H]. apply Forall_app in H as [H2 H].
  apply Forall_app in H as [H3 H4]. auto.
Qed.

(** Mounting and unmounting gives back the children of head and body. *)
Lemma effect_cleanup_restores (b : Browser) (evs : list Event) :
  fresh_above b ->
  exists h b1 b2,
    effect b = (Normal h, b1)
    /\ cleanup h (loaded_all evs b1) = (Normal tt, b2)
    /\ head b2 = head b /\ body b2 = body b
    /\ created b2 = 4 + created b
    /\ appended b2
       = appended b
         ++ [linkKatex h; scriptKatex h; scriptMermaid h; scriptTailwind h]
    /\ katex b2 = katex (loaded_all evs b1)
    /\ mermaid b2 = mermaid (loaded_all evs b1)
    /\ h = mkHandles
             (mkElement (created b) LinkTag katex_css)
             (mkElement (1 + created b) ScriptTag katex_js)
             (mkElement (2 + created b) ScriptTag mermaid_js)
             (mkElement (3 + created b) ScriptTag tailwind_js)
    /\ head b1 = head b ++ [linkKatex h]
    /\ body b1 = body b ++ [scriptKatex h; scriptMermaid h; scriptTailwind h]
    /\ head_below b2 = head_below b /\ body_below b2 = body_below b.
Proof.
  intros Hfresh.
  destruct (fresh_parts b Hfresh) as (Hh & Hb & Hhb & Hbb).
  pose proof (effect_eq b) as E. cbv zeta in E.
  set (n := created b) in *.
  set (l := mkElement n LinkTag katex_css) in *.
  set (sk := mkElement (S n) ScriptTag katex_js) in *.
  set (sm := mkElement (S (S n)) ScriptTag mermaid_js) in *.
  set (st := mkElement (S (S (S n))) ScriptTag tailwind_js) in *.
  set (h := mkHandles l sk sm st) in *.
  set (b1 := mkBrowser _ _ _ _ _ _ _ _) in E.
  set (b1' := loaded_all evs b1).
  destruct (loaded_all_keeps evs b1) as (A & B & C & D & A' & B').
  fold b1' in A, B, C, D, A', B'.
  assert (P : Forall (in_place b1') (targets h)).
  { assert (K : forall p x, is_child p x b1' = true -> in_place b1' (p, x)).
    { intros p x K. unfold in_place, contains. cbn [fst snd].
      rewrite K. reflexivity. }
    assert (M : forall (x : Element) (L R : list Element),
               existsb (same x) (L ++ x :: R) = true).
    { intros x L R. rewrite existsb_app. cbn [existsb]. unfold same at 2.
      rewrite Nat.eqb_refl. apply orb_true_r. }
    unfold targets. cbn [linkKatex scriptKatex scriptMermaid scriptTailwind h].
    repeat constructor; apply K; unfold is_child; cbn [children];
      rewrite ?A, ?B; subst b1; cbn [head body].
    - apply (M l (head b) []).
    - apply (M sk (body b) [sm; st]).
    - replace (body b ++ [sk; sm; st]) with ((body b ++ [sk]) ++ sm :: [st])
        by (rewrite <- app_assoc; reflexivity).
      apply M.
    - replace (body b ++ [sk; sm; st]) with ((body b ++ [sk; sm]) ++ st :: [])
        by (rewrite <- app_assoc; reflexivity).
      apply M. }
  pose proof (remove_each_in_place _ _ P) as N.
  pose proof (remove_each_result _ _ N) as R.
  destruct (remove_each_frame (targets h) b1') as (F1 & F2 & F3 & F4).
  destruct (R Head) as [RH RHb]. destruct (R Body) as [RB RBb].
  cbn [children below] in RH, RHb, RB, RBb.
  assert (Hold : Forall (fun t => n <= ident (snd t)) (targets h)).
  { unfold targets. repeat constructor; simpl; lia. }
  assert (Pair : remove_each (targets h) b1'
                 = (Normal tt, snd (remove_each (targets h) b1')))
    by (rewrite <- N; apply surjective_pairing).
  exists h, b1, (snd (remove_each (targets h) b1')).
  split; [exact E|].
  split; [fold b1'; rewrite cleanup_each; exact Pair|].
  rewrite RH, RB, RHb, RBb, F1, F2, F3, F4, A, B, C, D, A', B'.
  subst b1. cbn [head body created appended head_below body_below].
  rewrite !filter_app.
  rewrite (filter_targets_fresh (targets h) Head n (head b)),
    (filter_targets_fresh (targets h) Body n (body b)),
    (filter_targets_fresh (targets h) Head n (head_below b)),
    (filter_targets_fresh (targets h) Body n (body_below b)) by assumption.
  assert (T : forall p x, In (p, x) (targets h) ->
                negb (targeted (targets h) p x) = false)
    by (intros p x Hin; rewrite (targeted_self _ _ _ Hin); reflexivity).
  cbn [filter].
  rewrite (T Head l), (T Body sk), (T Body sm), (T Body st)
    by (unfold targets; simpl; tauto).
  rewrite !app_nil_r. repeat split.
Qed.

Lemma fresh_not_contained (b : Browser) (x : Element) (p : Parent) :
  fresh_above b -> created b <= ident x -> contains p x b = false.
Proof.
  intros H Hx. destruct (fresh_parts b H) as (Hh & Hb & Hhb & Hbb).
  assert (G : forall l, Forall (fun y => ident y < created b) l ->
                        existsb (same x) l = false).
  { induction 1 as [|y l Hy _ IH]; [reflexivity|].
    simpl. rewrite IH, orb_false_r. apply Nat.eqb_neq. lia. }
  unfold contains, is_child.
  destruct p; simpl; rewrite !G by assumption; reflexivity.
Qed.

Lemma targeted_same l p x y :
  In (p, x) l -> same x y = true -> targeted l p y = true.
Proof.
  intros H E. unfold targeted. apply existsb_exists.
  exists (p, x). split; [exact H|]. cbn [fst snd]. rewrite E.
  destruct p; reflexivity.
Qed.

Lemma untargeted_absent l p x (L : list Element) :
  In (p, x) l ->
  existsb (same x) (filter (fun y => negb (targeted l p y)) L) = false.
Proof.
  intros H. induction L as [|y L IH]; [reflexivity|].
  cbn [filter]. destruct (targeted l p y) eqn:T; cbn [negb]; [exact IH|].
  cbn [existsb]. rewrite IH, orb_false_r.
  destruct (same x y) eqn:E; [|reflexivity].
  rewrite (targeted_same l p x y H E) in T. discriminate T.
Qed.

Lemma remove_each_detaches l b p x :
  fst (remove_each l b) = Normal tt -> In (p, x) l ->
  contains p x (snd (remove_each l b)) = false.
Proof.
  intros N H. destruct (remove_each_result l b N p) as [C B].
  unfold contains, is_child. rewrite C, B.
  rewrite !untargeted_absent by exact H. reflexivity.
Qed.

(** Where the guard and the removal part: an element that lies below the
    parent without being its child passes [contains] and is refused by
    [removeChild]. *)
Lemma cleanup_nested_throws (h : Handles) (b : Browser) :
  contains Head (linkKatex h) b = true ->
  is_child Head (linkKatex h) b = false ->
  cleanup h b = (Throw (ErrorObject "NotFoundError"), b).
Proof.
  intros C I. rewrite cleanup_each. unfold targets.
  rewrite remove_each_cons.
  destruct (remove_if_contained_cases Head (linkKatex h) b)
    as [[I' _]|[[C' _]|[_ [_ E]]]].
  - rewrite I in I'. discriminate I'.
  - rewrite C in C'. discriminate C'.
  - rewrite E. reflexivity.
Qed.

(** C8.  The cleanup returned by the loading effect removes each of its
    four elements under a [contains] guard.  In every state of the
    document where each of the four is a child of its parent or not
    below it at all, the cleanup completes without throwing and leaves
    the KaTeX stylesheet out of [head] and the three scripts out of
    [body].  Run after the effect, whichever [onload] handlers have
    fired in between (also none), it gives back the children [head] and
    [body] had before the effect: none of the four injected elements is
    left in the document. *)
Theorem App_cleanup_detaches_resources :
  forall (b : Browser) (evs : list Event),
    (forall (h : Handles) (b' : Browser),
        Forall (in_place b') (targets h) ->
        fst (cleanup h b') = Normal tt
        /\ contains Head (linkKatex h) (snd (cleanup h b')) = false
        /\ contains Body (scriptKatex h) (snd (cleanup h b')) = false
        /\ contains Body (scriptMermaid h) (snd (cleanup h b')) = false
        /\ contains Body (scriptTailwind h) (snd (cleanup h b')) = false)
    /\ (fresh_above b ->
        exists h b1 b2,
          effect b = (Normal h, b1)
          /\ head b1 = head b ++ [linkKatex h]
          /\ body b1
             = body b ++ [scriptKatex h; scriptMermaid h; scriptTailwind h]
          /\ cleanup h (loaded_all evs b1) = (Normal tt, b2)
          /\ head b2 = head b /\ body b2 = body b
          /\ (forall x p,
                 In x [linkKatex h; scriptKatex h; scriptMermaid h;
                       scriptTailwind h] ->
                 contains p x b2 = false)).
Proof.
  intros b evs. split.
  - intros h b' P. rewrite cleanup_each.
    pose proof (remove_each_in_place _ _ P) as N.
    split; [exact N|].
    repeat split; apply remove_each_detaches; try exact N;
      unfold targets; cbn [In]; tauto.
  - intros Hfresh.
    destruct (effect_cleanup_restores b evs Hfresh)
      as (h & b1 & b2 & E1 & E2 & Hh & Hb & Hc & _ & _ & _ & Eh & H1 & B1
          & Hhb & Hbb).
    exists h, b1, b2. repeat split; try assumption.
    intros x p Hx.
    assert (G : contains p x b = false).
    { apply fresh_not_contained; [exact Hfresh|].
      subst h. simpl in Hx.
      destruct Hx as [<-|[<-|[<-|[<-|[]]]]]; simpl; lia. }
    unfold contains, is_child in *. destruct p; cbn [children below] in *;
      [rewrite Hh, Hhb | rewrite Hb, Hbb]; exact G.
Qed.

Lemma App_cleanup_detaches_resources_witness :
  let b := mkBrowser [mkElement 0 LinkTag "/favicon.ico"]
                     [mkElement 1 ScriptTag "/src/main.tsx"] 2 [] false
                     false [] [] in
  let h' := mkHandles (mkElement 2 LinkTag katex_css)
                      (mkElement 3 ScriptTag katex_js)
                      (mkElement 4 ScriptTag mermaid_js)
                      (mkElement 5 ScriptTag tailwind_js) in
  let b' := mkBrowser [mkElement 0 LinkTag "/favicon.ico"; linkKatex h']
                      [scriptMermaid h'; mkElement 1 ScriptTag "/src/main.tsx"]
                      6 [] false true [] [] in
  (exists h b1 b2,
      effect b = (Normal h, b1)
      /\ head b1 = head b ++ [linkKatex h]
      /\ body b1
         = body b ++ [scriptKatex h; scriptMermaid h; scriptTailwind h]
      /\ cleanup h (loaded_all [] b1) = (Normal tt, b2)
      /\ head b2 = head b /\ body b2 = body b
      /\ (forall x p,
             In x [linkKatex h; scriptKatex h; scriptMermaid h;
                   scriptTailwind h] ->
             contains p x b2 = false))
  /\ fst (cleanup h' b') = Normal tt
  /\ contains Body (scriptMermaid h') (snd (cleanup h' b')) = false.
Proof.
  intros b h' b'.
  destruct (App_cleanup_detaches_resources b []) as [A B].
  split.
  - apply B. unfold fresh_above. simpl. repeat constructor.
  - destruct (A h' b') as (N & _ & _ & M & _).
    + repeat (apply Forall_cons; [reflexivity|]). apply Forall_nil.
    + split; [exact N | exact M].
Defined.

(** C7 (as amended).  The loading effect looks neither at the document
    nor at [window.katex] or [window.mermaid]: each time the scope is
    entered it creates four new elements and appends them, also when the
    engines are already defined.  After the effect, its cleanup and the
    effect again, every locator has been appended twice, by elements of
    different identity; the document holds, beyond what it held before,
    one element per locator, those of the second entry, because the
    cleanup of the first entry removed its own. *)
Theorem App_effect_injects_on_every_entry :
  forall (b : Browser) (evs : list Event),
    fresh_above b ->
    exists h1 b1 b2 h2 b3,
      effect b = (Normal h1, b1)
      /\ cleanup h1 (loaded_all evs b1) = (Normal tt, b2)
      /\ katex b2 = katex (loaded_all evs b1)
      /\ mermaid b2 = mermaid (loaded_all evs b1)
      /\ effect b2 = (Normal h2, b3)
      /\ appended b3
         = appended b
           ++ [linkKatex h1; scriptKatex h1; scriptMermaid h1;
               scriptTailwind h1]
           ++ [linkKatex h2; scriptKatex h2; scriptMermaid h2;
               scriptTailwind h2]
      /\ map url [linkKatex h1; scriptKatex h1; scriptMermaid h1;
                  scriptTailwind h1]
         = [katex_css; katex_js; mermaid_js; tailwind_js]
      /\ map url [linkKatex h2; scriptKatex h2; scriptMermaid h2;
                  scriptTailwind h2]
         = [katex_css; katex_js; mermaid_js; tailwind_js]
      /\ same (linkKatex h1) (linkKatex h2) = false
      /\ same (scriptKatex h1) (scriptKatex h2) = false
      /\ same (scriptMermaid h1) (scriptMermaid h2) = false
      /\ same (scriptTailwind h1) (scriptTailwind h2) = false
      /\ head b3 = head b ++ [linkKatex h2]
      /\ body b3
         = body b ++ [scriptKatex h2; scriptMermaid h2; scriptTailwind h2].
Proof.
  intros b evs Hfresh.
  destruct (effect_cleanup_restores b evs Hfresh)
    as (h1 & b1 & b2 & E1 & E2 & Hh & Hb & Hc & Ha & Hk & Hm & Eh & _ & _).
  exists h1, b1, b2. eexists _, _.
  split; [exact E1|]. split; [exact E2|].
  split; [exact Hk|]. split; [exact Hm|].
  split; [apply effect_eq|].
  cbn [head body created appended katex mermaid linkKatex scriptKatex
       scriptMermaid scriptTailwind].
  rewrite Hh, Hb, Hc, Ha, <- app_assoc. subst h1.
  repeat split; unfold same; simpl; apply Nat.eqb_neq; lia.
Qed.

Lemma App_effect_injects_on_every_entry_witness :
  exists h1 b1 b2 h2 b3,
    effect empty_browser = (Normal h1, b1)
    /\ cleanup h1 (loaded_all [KatexOnload] b1) = (Normal tt, b2)
    /\ katex b2 = true
    /\ effect b2 = (Normal h2, b3)
    /\ same (scriptKatex h1) (scriptKatex h2) = false
    /\ body b3 = [scriptKatex h2; scriptMermaid h2; scriptTailwind h2].
Proof.
  destruct (App_effect_injects_on_every_entry empty_browser [KatexOnload])
    as (h1 & b1 & b2 & h2 & b3 & E1 & E2 & Hk & _ & E3 & _ & _ & _ & _
        & S2 & _ & _ & _ & B3).
  - unfold fresh_above. simpl. constructor.
  - exists h1, b1, b2, h2, b3.
    repeat split; assumption.
Defined.

(** C7, counterexample.  [App] is mounted in an empty document, the three
    scripts load (so [window.katex] and [window.mermaid] are defined),
    [App] is unmounted and mounted again: the second entry appends each
    locator once more. *)
Lemma App_remount_injects_again :
  match effect empty_browser with
  | (Normal h1, b1) =>
      match cleanup h1 (loaded_all [KatexOnload; MermaidOnload;
                                    TailwindOnload] b1) with
      | (Normal _, b2) =>
          katex b2 = true /\ mermaid b2 = true
          /\ match effect b2 with
             | (Normal h2, b3) =>
                 map url (appended b3)
                 = [ katex_css; katex_js; mermaid_js; tailwind_js;
                     katex_css; katex_js; mermaid_js; tailwind_js ]
                 /\ count_url katex_js (appended b3) = 2
                 /\ same (scriptKatex h1) (scriptKatex h2) = false
             | _ => False
             end
      | _ => False
      end
  | _ => False
  end.
Proof. vm_compute. repeat split. Qed.

(** The older variant: in a document nobody else touches, its cleanup
    finds its three elements and removes them. *)
Lemma effect_older_cleanup_restores (b : Browser) :
  fresh_above b ->
  exists h b1 b2,
    effect_older b = (Normal h, b1)
    /\ cleanup_older h b1 = (Normal tt, b2)
    /\ head b2 = head b /\ body b2 = body b.
Proof.
  intros Hfresh. apply fresh_parts in Hfresh as (Hh & Hb & _ & _).
  destruct b as [hd bd n ap k m hb bb]. cbn [head body created] in *.
  set (l := mkElement n LinkTag katex_css).
  set (sk := mkElement (S n) ScriptTag katex_js).
  set (sm := mkElement (S (S n)) ScriptTag mermaid_js).
  assert (C : forall (x : Element) l r,
             existsb (same x) (l ++ x :: r) = true).
  { intros x l0 r. rewrite existsb_app. cbn [existsb]. unfold same at 2.
    rewrite Nat.eqb_refl. apply orb_true_r. }
  assert (F : forall (x : Element) (L : list Element),
             Forall (fun y => ident y < ident x) L ->
             filter (fun y => negb (same x y)) L = L)
    by exact filter_fresh.
  eexists (mkHandlesOlder l sk sm),
    (mkBrowser (hd ++ [l]) (bd ++ [sk; sm]) (S (S (S n))) (ap ++ [l; sk; sm])
               k m hb bb), _.
  split.
  { cbv [effect_older bind createElement appendChild modify ret with_children
         children head body created appended katex mermaid head_below
         body_below].
    rewrite <- !app_assoc. reflexivity. }
  cbv [cleanup_older bind removeChild is_child detach children below
       with_children with_below head body created appended katex mermaid
       head_below body_below link scriptKatexOlder scriptMermaidOlder].
  rewrite (C l hd []). cbv beta iota.
  rewrite (C sk bd [sm]). cbv beta iota.
  rewrite (filter_app_fresh l) by exact Hh.
  rewrite filter_self.
  rewrite (filter_app_fresh sk) by older.
  rewrite filter_self, !filter_other by (simpl; lia).
  cbn [filter]. rewrite (C sm bd []). cbv beta iota.
  rewrite (filter_app_fresh sm) by older.
  rewrite filter_self. cbn [filter]. rewrite !app_nil_r.
  split; [reflexivity|]. split; reflexivity.
Qed.

End ResourceLoading.


(** * Further properties of the components *)

(** ** The list of steps of a method page *)

Section StepList.
Import Js Layout.

Lemma split_cons sep s : exists h t, split sep s = h :: t.
Proof.
  induction s as [|c r [h [t IH]]]; simpl; [eauto|].
  destruct (Ascii.eqb c sep); [eauto|]. rewrite IH. eauto.
Qed.

Lemma append_length a b :
  String.length (a ++ b) = String.length a + String.length b.
Proof. induction a; simpl; auto. Qed.

Lemma append_assoc a b c : (a ++ b) ++ c = a ++ b ++ c.
Proof. induction a; simpl; congruence. Qed.

Lemma append_nil_r a : a ++ EmptyString = a.
Proof. induction a; simpl; congruence. Qed.

Lemma count_char_app c a b :
  count_char c (a ++ b) = count_char c a + count_char c b.
Proof. induction a as [|d a IH]; simpl; [reflexivity|]. rewrite IH. lia. Qed.

Lemma concat_cons sep x y l :
  String.concat sep (x :: y :: l) = x ++ sep ++ String.concat sep (y :: l).
Proof. reflexivity. Qed.

(** X1.  [split] loses nothing: joining the pieces with the separator gives
    the string back; there is one piece more than there are separators, and
    no piece holds the separator. *)
Theorem split_join :
  forall (sep : ascii) (s : string),
    String.concat (String sep EmptyString) (split sep s) = s
    /\ List.length (split sep s) = S (count_char sep s)
    /\ Forall (fun piece => count_char sep piece = 0) (split sep s).
Proof.
  intros sep s. induction s as [|c r (IH1 & IH2 & IH3)].
  - simpl. repeat split. constructor; [reflexivity|constructor].
  - cbn [split count_char].
    destruct (split_cons sep r) as [h [t E]]. rewrite E in *.
    destruct (Ascii.eqb c sep) eqn:Ec.
    + apply Ascii.eqb_eq in Ec. subst c. repeat split.
      * rewrite concat_cons, IH1. reflexivity.
      * simpl in *. lia.
      * constructor; [reflexivity|assumption].
    + repeat split.
      * destruct t as [|x t].
        -- simpl in *. congruence.
        -- rewrite concat_cons in *. rewrite <- IH1. reflexivity.
      * simpl in *. lia.
      * inversion IH3; subst. constructor; [|assumption].
        simpl. rewrite Ec. assumption.
Qed.

Lemma split_concat_length sep s :
  String.concat (String sep EmptyString) (split sep s) = s
  /\ List.length (split sep s) = S (count_char sep s).
Proof.
  induction s as [|c r [IH1 IH2]]; [split; reflexivity|].
  cbn [split count_char].
  destruct (split_cons sep r) as [h [t E]]. rewrite E in *.
  destruct (Ascii.eqb c sep) eqn:Ec.
  - apply Ascii.eqb_eq in Ec. subst c.
    rewrite concat_cons, IH1. simpl in *. split; [reflexivity|lia].
  - split; [|simpl in *; lia].
    destruct t as [|x t]; [simpl in *; congruence|].
    rewrite concat_cons in *. rewrite <- IH1. reflexivity.
Qed.

Lemma split_clean sep s :
  Forall (fun piece => count_char sep piece = 0) (split sep s).
Proof.
  induction s as [|c r IH].
  - constructor; [reflexivity|constructor].
  - cbn [split]. destruct (split_cons sep r) as [h [t E]]. rewrite E in *.
    destruct (Ascii.eqb c sep) eqn:Ec.
    + constructor; [reflexivity|assumption].
    + inversion IH; subst. constructor; [|assumption].
      simpl. rewrite Ec. assumption.
Qed.

Lemma step_item_pieces step :
  exists h t,
    split ":" step = h :: t
    /\ String.concat ":" (h :: t) = step
    /\ List.length t = count_char ":" step
    /\ step_item step = mkStepItem (h ++ ":") (nth_error t 0)
    /\ Forall (fun piece => count_char ":" piece = 0) (h :: t).
Proof.
  destruct (split_concat_length ":" step) as (J & L).
  pose proof (split_clean ":" step) as C.
  destruct (split_cons ":" step) as [h [t E]].
  exists h, t. rewrite E in J, L, C. simpl in L.
  unfold step_item. rewrite E. repeat split; try assumption; lia.
Qed.

(** X2.  An entry of the list of steps shows the text before the first
    colon and a colon, then a space, then the text between the first and
    the second colon.  Because of the space it never shows the step as it
    was written.  What it takes from the step is the whole step exactly
    when the step has one colon: a step without colon gets a colon it did
    not have and no second piece, and of a step with more colons
    everything from the second colon on is dropped. *)
Theorem step_item_text :
  forall step : string,
    let i := step_item step in
    text i <> step
    /\ (taken i = step <-> count_char ":" step = 1)
    /\ (count_char ":" step = 0 ->
        i = mkStepItem (step ++ ":") None /\ text i = step ++ ": ")
    /\ (1 <= count_char ":" step ->
        exists second dropped,
          body i = Some second
          /\ text i = label i ++ " " ++ second
          /\ step = label i ++ second ++ dropped
          /\ (count_char ":" step = 1 -> dropped = EmptyString)
          /\ (2 <= count_char ":" step ->
              String.prefix ":" dropped = true)).
Proof.
  intros step. cbv zeta.
  destruct (step_item_pieces step) as (h & t & _ & J & L & E & C).
  rewrite E. unfold text, taken. cbn [label body].
  inversion C as [|? ? Ch Ct]; subst.
  destruct t as [|b [|b2 t]]; cbn [nth_error List.length] in *.
  - simpl in E, L |- *. rewrite <- L.
    split; [|split; [split; intros H|split; [intros _; split|lia]]].
    + intros H. apply (f_equal String.length) in H.
      rewrite !append_length in H. simpl in H. lia.
    + apply (f_equal String.length) in H.
      rewrite !append_length in H. simpl in H. lia.
    + discriminate H.
    + reflexivity.
    + rewrite append_assoc. reflexivity.
  - rewrite concat_cons in *. simpl String.concat in *. rewrite <- L.
    split; [|split; [split; intros H|split; [lia|]]].
    + intros H. apply (f_equal String.length) in H.
      rewrite !append_length in H. simpl in H. lia.
    + reflexivity.
    + apply append_assoc.
    + intros _. exists b, EmptyString. repeat split.
      * rewrite append_nil_r. symmetry. apply append_assoc.
      * lia.
  - rewrite !concat_cons in *. inversion Ct as [|? ? Cb _]; subst.
    split; [|split; [split; intros H|split; [lia|]]].
    + intros H. apply (f_equal (count_char ":")) in H.
      rewrite !count_char_app, Ch, Cb in H. simpl in H. lia.
    + apply (f_equal String.length) in H.
      rewrite !append_length in H. simpl in H. lia.
    + lia.
    + intros _. exists b, (":" ++ String.concat ":" (b2 :: t)).
      repeat split.
      * rewrite !append_assoc. reflexivity.
      * lia.
      * intros _. apply prefix_app.
Qed.

Lemma step_item_text_witness :
  text (step_item "Assuma: que a premissa P(x) é verdadeira.")
  = "Assuma:  que a premissa P(x) é verdadeira."
  /\ text (step_item
             "Reescreva: a implicação original P → Q em sua forma contrapositiva: ¬Q → ¬P.")
     = "Reescreva:  a implicação original P → Q em sua forma contrapositiva"
  /\ step_item "Conclua" = mkStepItem "Conclua:" None
  /\ text (step_item "Conclua") = "Conclua: ".
Proof.
  pose proof (step_item_text "Assuma: que a premissa P(x) é verdadeira.")
    as H1.
  pose proof (step_item_text "Conclua") as H0.
  cbv zeta in H1, H0.
  destruct H1 as (_ & _ & _ & H1). destruct H0 as (_ & _ & H0 & _).
  destruct H1 as (second & dropped & B & T & _); [vm_compute; lia|].
  split; [|split; [reflexivity|exact (H0 eq_refl)]].
  rewrite T. injection B as <-. reflexivity.
Defined.

End StepList.

(** ** Histories of a mounted MermaidDiagram *)

Section MermaidHistories.
Import Js Mermaid Traces.

Lemma run_cons ev evs w : run (ev :: evs) w = run evs (step w ev).
Proof. reflexivity. Qed.

Lemma no_job_settles w ev :
  calls w = [] ->
  match ev with Rerender _ _ => True | _ => step w ev = w end.
Proof.
  intros Hc. destruct ev as [p e|job svg|job err]; [exact I| |];
    simpl; unfold pending; rewrite Hc; destruct job; reflexivity.
Qed.

(** Nothing stored, nothing issued, the ref null: the state a mount with
    a chart and a ready engine leaves. *)
Lemma waiting_step w ev :
  ready_chart ev = true ->
  calls w = [] /\ state w = mkState None None false ->
  calls (step w ev) = [] /\ state (step w ev) = mkState None None false.
Proof.
  intros Hev [Hc Hs].
  pose proof (no_job_settles w ev Hc) as Hn.
  destruct ev as [p e|job svg|job err]; try (rewrite Hn; auto).
  simpl in Hev. apply andb_true_iff in Hev as [Hl Ht]. simpl.
  destruct (same_deps (props w) p); [auto|].
  unfold run_effect, effect. rewrite Hs, Hl, Ht. simpl.
  rewrite andb_false_r. simpl. auto.
Qed.

(** X3.  Mounted with the engine ready and a chart that is not empty, as
    [MethodPageLayout] mounts it under an open gate, [MermaidDiagram]
    shows the waiting placeholder and has called the engine not once, and
    this stays so whatever non-empty charts it is given afterwards: the
    ref the effect asks for is attached only to the container of a
    rendered diagram. *)
Theorem MermaidDiagram_waits_forever :
  forall (p : Props) (e : Env) (evs : list Event),
    isMermaidLoaded p = true ->
    truthy (chart p) = true ->
    forallb ready_chart evs = true ->
    let w := run evs (mount p e) in
    view (state w) = Waiting /\ calls w = [] /\ console w = [].
Proof.
  intros p e evs Hl Ht Hevs.
  assert (H0 : calls (mount p e) = []
               /\ state (mount p e) = mkState None None false
               /\ console (mount p e) = []).
  { unfold mount, run_effect, effect. simpl. rewrite Hl, Ht. simpl.
    rewrite andb_false_r. simpl. auto. }
  revert H0. generalize (mount p e). induction evs as [|ev evs IH].
  - intros w (Hc & Hs & Hk). simpl. rewrite Hs. auto.
  - intros w (Hc & Hs & Hk). simpl in Hevs.
    apply andb_true_iff in Hevs as [H1 H2].
    rewrite run_cons. apply IH; [exact H2|].
    destruct (waiting_step w ev H1 (conj Hc Hs)) as [Hc' Hs'].
    repeat split; try assumption.
    pose proof (no_job_settles w ev Hc) as Hn.
    destruct ev as [q e'|job svg|job err]; try (rewrite Hn; assumption).
    simpl in H1. apply andb_true_iff in H1 as [Hl' Ht']. simpl.
    destruct (same_deps (props w) q); [assumption|].
    unfold run_effect, effect. rewrite Hs, Hl', Ht'. simpl.
    rewrite andb_false_r. simpl. assumption.
Qed.

Lemma MermaidDiagram_waits_forever_witness :
  let w := run [ Rerender (mkProps "graph TD; B" true)
                          (mkEnv true 1700000000000 "0.4fzyo82mvyr");
                 Resolve 0 "<svg></svg>" ]
               (mount (mkProps "graph TD; A" true)
                      (mkEnv true 1700000000000 "0.4fzyo82mvyr")) in
  view (state w) = Waiting /\ calls w = [] /\ console w = [].
Proof.
  apply (MermaidDiagram_waits_forever
           (mkProps "graph TD; A" true)
           (mkEnv true 1700000000000 "0.4fzyo82mvyr")
           [ Rerender (mkProps "graph TD; B" true)
                      (mkEnv true 1700000000000 "0.4fzyo82mvyr");
             Resolve 0 "<svg></svg>" ]);
    reflexivity.
Defined.

Lemma error_kept_step w ev :
  engine_ready ev = true ->
  unrendered w /\ renderError (state w) = Some no_chart_message ->
  unrendered (step w ev)
  /\ renderError (state (step w ev)) = Some no_chart_message.
Proof.
  intros Hev [Hu He]. split; [apply unrendered_step, Hu|].
  destruct Hu as (Hc & Hs & Hr).
  pose proof (no_job_settles w ev Hc) as Hn.
  destruct ev as [p e|job svg|job err]; try (rewrite Hn; assumption).
  simpl in Hev. simpl.
  destruct (same_deps (props w) p); [assumption|].
  unfold run_effect, effect. rewrite Hev, Hr. simpl.
  rewrite andb_false_r. simpl.
  destruct (truthy (chart p)); simpl; [assumption|reflexivity].
Qed.

(** X4.  The message for a missing chart does not go away while the
    engine is ready.  Once a mounted [MermaidDiagram] has been given an
    empty chart with the engine ready, it shows
    [Nenhum diagrama Mermaid fornecido.] from then on, also after charts
    that are not empty, and it calls the engine for none of them. *)
Theorem MermaidDiagram_no_chart_message_stays :
  forall (p : Props) (e e' : Env) (before after : list Event),
    forallb engine_ready after = true ->
    let w := run (before
                  ++ Rerender (mkProps EmptyString true) e' :: after)
                 (mount p e) in
    (chart (props (run before (mount p e))) <> EmptyString
     \/ isMermaidLoaded (props (run before (mount p e))) = false) ->
    view (state w) = ErrorMessage no_chart_message /\ calls w = [].
Proof.
  intros p e e' before after Hafter w Hchg. subst w.
  unfold run. rewrite fold_left_app. fold (run before (mount p e)).
  set (w0 := run before (mount p e)) in *.
  assert (Hu : unrendered w0).
  { clear Hchg. subst w0. induction before as [|ev evs IH] using rev_ind.
    - apply unrendered_effect. repeat split.
    - rewrite run_app. apply unrendered_step, IH. }
  cbn [fold_left].
  assert (H1 : unrendered (step w0 (Rerender (mkProps EmptyString true) e'))
               /\ renderError
                    (state (step w0 (Rerender (mkProps EmptyString true) e')))
                  = Some no_chart_message).
  { split; [apply unrendered_step, Hu|].
    simpl. unfold same_deps. cbn [chart isMermaidLoaded].
    replace (String.eqb (chart (props w0)) EmptyString
             && Bool.eqb (isMermaidLoaded (props w0)) true) with false.
    - unfold run_effect, effect. simpl.
      destruct (mermaid e'), (mermaidRef (state w0)); reflexivity.
    - symmetry. destruct Hchg as [Hc|Hl].
      + apply String.eqb_neq in Hc. rewrite Hc. reflexivity.
      + rewrite Hl. apply andb_false_r. }
  revert H1.
  generalize (step w0 (Rerender (mkProps EmptyString true) e')).
  clear Hu Hchg. induction after as [|ev evs IH]; intros w [Hu He].
  - simpl. destruct Hu as (Hc & Hs & Hr). split; [|exact Hc].
    unfold view. rewrite He, Hs. reflexivity.
  - simpl in Hafter. apply andb_true_iff in Hafter as [H1 H2].
    cbn [fold_left]. apply IH; [exact H2|].
    apply error_kept_step; auto.
Qed.

Lemma MermaidDiagram_no_chart_message_stays_witness :
  let e := mkEnv true 1700000000000 "0.4fzyo82mvyr" in
  let w := run ([] ++ Rerender (mkProps EmptyString true) e
                   :: [Rerender (mkProps "graph TD; B" true) e])
               (mount (mkProps "graph TD; A" true) e) in
  chart (props w) = "graph TD; B"
  /\ view (state w) = ErrorMessage no_chart_message /\ calls w = [].
Proof.
  split; [reflexivity|].
  apply (MermaidDiagram_no_chart_message_stays
           (mkProps "graph TD; A" true)
           (mkEnv true 1700000000000 "0.4fzyo82mvyr")
           (mkEnv true 1700000000000 "0.4fzyo82mvyr")
           [] [Rerender (mkProps "graph TD; B" true)
                        (mkEnv true 1700000000000 "0.4fzyo82mvyr")]).
  - reflexivity.
  - left. discriminate.
Defined.

End MermaidHistories.

(** ** The older MermaidDiagram *)

Section OlderHistories.
Import Js Traces.

Lemma older_run_app evs ev w :
  Older.run (evs ++ [ev]) w = Older.step (Older.run evs w) ev.
Proof. unfold Older.run. rewrite fold_left_app. reflexivity. Qed.

(** X5.  The older [MermaidDiagram] looks for [window.mermaid] only in
    the effects of its first render.  Mounted before the engine is
    defined, it never becomes ready: whatever charts follow, it has called
    the engine not once and shows the waiting placeholder. *)
Theorem OlderDiagram_mounted_too_early :
  forall (c : string) (evs : list Older.Event),
    let w := Older.run evs (Older.mount c false) in
    Older.calls w = []
    /\ Older.mermaidReady (Older.state w) = false
    /\ Older.view (Older.state w) = Older.Waiting.
Proof.
  intros c evs.
  assert (H : Older.calls (Older.run evs (Older.mount c false)) = []
              /\ Older.state (Older.run evs (Older.mount c false))
                 = Older.mkState EmptyString false).
  { induction evs as [|ev evs [Hc Hs]] using rev_ind.
    - unfold Older.mount, Older.run_effects, Older.effect_render. simpl.
      rewrite andb_false_r. simpl. auto.
    - rewrite older_run_app.
      set (w := Older.run evs (Older.mount c false)) in *.
      destruct ev as [c'|job svg|job err]; simpl.
      + destruct (String.eqb (Older.chart w) c'); [auto|].
        unfold Older.effect_render. rewrite Hs. simpl.
        rewrite andb_false_r. simpl. auto.
      + unfold Older.pending. rewrite Hc. destruct job; simpl; auto.
      + unfold Older.pending. rewrite Hc. destruct job; simpl; auto. }
  destruct H as [Hc Hs]. cbv zeta. rewrite Hs. auto.
Qed.

(** What holds of the older component once it is ready. *)
Lemma older_ready_step w ev :
  Older.mermaidReady (Older.state w) = true ->
  Forall (fun k => Mermaid.call_id k = "mermaid-svg") (Older.calls w) ->
  (truthy (Older.chart w) = true ->
   last_call (Older.calls w)
   = Some (Mermaid.mkCall "mermaid-svg" (Older.chart w))) ->
  let w' := Older.step w ev in
  Older.mermaidReady (Older.state w') = true
  /\ Forall (fun k => Mermaid.call_id k = "mermaid-svg") (Older.calls w')
  /\ (truthy (Older.chart w') = true ->
      last_call (Older.calls w')
      = Some (Mermaid.mkCall "mermaid-svg" (Older.chart w'))).
Proof.
  intros Hr Hids Hlast.
  destruct ev as [c'|job svg|job err]; simpl.
  - destruct (String.eqb (Older.chart w) c') eqn:E; [auto|].
    unfold Older.effect_render. rewrite Hr, andb_true_r.
    destruct (truthy c') eqn:Ht; simpl.
    + repeat split; [exact Hr| |].
      * apply Forall_app. split; [exact Hids|repeat constructor].
      * intros _. unfold last_call. rewrite length_app. simpl.
        rewrite nth_error_app2 by lia.
        replace (List.length (Older.calls w) + 1 - 1
                 - List.length (Older.calls w)) with 0 by lia.
        reflexivity.
    + split; [exact Hr|]. split; [exact Hids|].
      intros H. rewrite Ht in H. discriminate H.
  - destruct (Older.pending job w); simpl; auto.
  - destruct (Older.pending job w); simpl; auto.
Qed.

(** X6.  Mounted with the engine defined, the older [MermaidDiagram] keeps
    up with its chart: whenever the chart is not empty, the render call
    issued last is the one for the present chart; every call it has ever
    issued carries the identifier [mermaid-svg]. *)
Theorem OlderDiagram_latest_call_is_current :
  forall (c : string) (evs : list Older.Event),
    let w := Older.run evs (Older.mount c true) in
    Forall (fun k => Mermaid.call_id k = "mermaid-svg") (Older.calls w)
    /\ (truthy (Older.chart w) = true ->
        last_call (Older.calls w)
        = Some (Mermaid.mkCall "mermaid-svg" (Older.chart w))).
Proof.
  intros c evs.
  assert (H : Older.mermaidReady
                (Older.state (Older.run evs (Older.mount c true))) = true
              /\ Forall (fun k => Mermaid.call_id k = "mermaid-svg")
                        (Older.calls (Older.run evs (Older.mount c true)))
              /\ (truthy (Older.chart (Older.run evs (Older.mount c true)))
                  = true ->
                  last_call (Older.calls
                               (Older.run evs (Older.mount c true)))
                  = Some (Mermaid.mkCall "mermaid-svg"
                            (Older.chart
                               (Older.run evs (Older.mount c true)))))).
  { induction evs as [|ev evs (Hr & Hids & Hlast)] using rev_ind.
    - unfold Older.mount, Older.run_effects, Older.effect_render,
        Older.effect_ready. simpl. rewrite andb_false_r. simpl.
      rewrite andb_true_r.
      destruct (truthy c) eqn:Ht; simpl.
      + repeat split; auto.
      + split; [reflexivity|]. split; [constructor|].
        intros H. rewrite Ht in H. discriminate H.
    - rewrite older_run_app. apply older_ready_step; assumption. }
  destruct H as (_ & Hids & Hlast). split; assumption.
Qed.

Lemma OlderDiagram_latest_call_is_current_witness :
  let w := Older.run [ Older.Rerender "graph TD; B";
                       Older.Resolve 0 "<svg>A</svg>" ]
                     (Older.mount "graph TD; A" true) in
  last_call (Older.calls w) = Some (Mermaid.mkCall "mermaid-svg" "graph TD; B").
Proof.
  apply (OlderDiagram_latest_call_is_current
           "graph TD; A"
           [ Older.Rerender "graph TD; B"; Older.Resolve 0 "<svg>A</svg>" ]).
  reflexivity.
Defined.

End OlderHistories.

(** ** KaTeXRenderer: successive renders and what the engine is asked *)

Section KaTeXRendererMore.
Import Js KaTeX Traces.

(** X7.  The latest render wins.  With an engine that replaces the content
    of its target, rendering one expression and then another leaves the
    span as rendering the second alone does; in particular an error
    message left by a failed render is gone after the next render. *)
Theorem KaTeXRenderer_latest_render_wins :
  forall (katex : option Engine) (parseHTML : string -> string)
         (math1 math2 : string) (mode1 mode2 : bool) (p : Page),
    (forall k : Engine, katex = Some k -> overwrites k) ->
    span (run (effect katex parseHTML math2 mode2)
              (run (effect katex parseHTML math1 mode1) p))
    = span (run (effect katex parseHTML math2 mode2) p).
Proof.
  intros katex parse m1 m2 d1 d2 p Hk.
  destruct katex as [k|]; [|reflexivity].
  pose proof (effect_keeps_ref (Some k) parse m1 d1 p) as Href.
  destruct (run (effect (Some k) parse m1 d1) p) as [[c|] lc] eqn:E,
           p as [[a|] la]; try discriminate Href.
  - apply effect_span_overwritten, Hk. reflexivity.
  - reflexivity.
Qed.

Lemma KaTeXRenderer_latest_render_wins_witness :
  span (run (effect (Some toy_engine) plain "n" false)
            (run (effect (Some toy_engine) plain "\frac{1" false)
                 (mkPage (Some EmptyString) [])))
  = Some "<span class=katex>n</span>".
Proof.
  rewrite (KaTeXRenderer_latest_render_wins
             (Some toy_engine) plain "\frac{1" "n" false false
             (mkPage (Some EmptyString) [])).
  - reflexivity.
  - intros k [= <-]. exact toy_engine_overwrites.
Defined.

(** X8.  [KaTeXRenderer] calls the engine only with an element as target
    and only with [throwOnError: false]: what it leaves on the page is the
    same for two engines that agree on such calls.  Without an engine, or
    with a null ref, it changes nothing, console included. *)
Theorem KaTeXRenderer_engine_calls :
  forall (k k' : Engine) (parseHTML : string -> string) (math : string)
         (displayMode : bool) (p : Page),
    agree_on_elements k k' ->
    run (effect (Some k) parseHTML math displayMode) p
    = run (effect (Some k') parseHTML math displayMode) p
    /\ run (effect None parseHTML math displayMode) p = p
    /\ run (effect (Some k) parseHTML math displayMode)
           (mkPage None (console p))
       = mkPage None (console p).
Proof.
  intros k k' parse math dm p H. split; [|split; reflexivity].
  unfold run, effect. destruct p as [[a|] la]; [|reflexivity].
  unfold try_catch, render. simpl. rewrite (H math a dm). reflexivity.
Qed.

Lemma KaTeXRenderer_engine_calls_witness :
  let strict : Engine :=
    fun math target displayMode throwOnError =>
      match target with
      | Some _ => if throwOnError then Raised EmptyString (OtherValue "strict")
                  else toy_engine math target displayMode throwOnError
      | None => Raised EmptyString (ErrorObject "no target")
      end in
  run (effect (Some strict) plain "P(n)" false) (mkPage (Some "old") [])
  = mkPage (Some "<span class=katex>P(n)</span>") [].
Proof.
  intros strict.
  rewrite (proj1 (KaTeXRenderer_engine_calls
                    strict toy_engine plain "P(n)" false
                    (mkPage (Some "old") [])
                    (fun _ _ _ => eq_refl))).
  reflexivity.
Defined.

End KaTeXRendererMore.

(** ** The scope of App entered and left again and again *)

Section ScopeCycles.
Import Js App Traces.
Local Open Scope list_scope.

(** The guard does not cover an element that lies deeper below [head]:
    the cleanup throws there, and throws again when run again. *)
Lemma cleanup_nested_twice :
  let h := mkHandles (mkElement 2 LinkTag katex_css)
                     (mkElement 3 ScriptTag katex_js)
                     (mkElement 4 ScriptTag mermaid_js)
                     (mkElement 5 ScriptTag tailwind_js) in
  let b := mkBrowser [mkElement 0 LinkTag "/favicon.ico"]
                     [scriptKatex h; scriptMermaid h; scriptTailwind h]
                     6 [] false false [linkKatex h] [] in
  cleanup h b = (Throw (ErrorObject "NotFoundError"), b)
  /\ cleanup h (snd (cleanup h b)) = (Throw (ErrorObject "NotFoundError"), b).
Proof. split; reflexivity. Qed.

(** X9.  The cleanup of [App] can run twice: the second run ends as the
    first did and leaves the document as the first left it.  When the
    first run completed, the second finds nothing of its own, removes
    nothing and does not throw. *)
Theorem App_cleanup_twice :
  forall (h : Handles) (b : Browser),
    cleanup h (snd (cleanup h b)) = cleanup h b
    /\ (fst (cleanup h b) = Normal tt ->
        cleanup h (snd (cleanup h b)) = (Normal tt, snd (cleanup h b)))
    /\ (Forall (in_place b) (targets h) -> fst (cleanup h b) = Normal tt).
Proof.
  intros h b. rewrite !cleanup_each.
  pose proof (remove_each_twice (targets h) b) as T.
  split; [exact T|]. split.
  - intros N. rewrite T. rewrite <- N. apply surjective_pairing.
  - apply remove_each_in_place.
Qed.

Lemma App_cleanup_twice_witness :
  let h := mkHandles (mkElement 2 LinkTag katex_css)
                     (mkElement 3 ScriptTag katex_js)
                     (mkElement 4 ScriptTag mermaid_js)
                     (mkElement 5 ScriptTag tailwind_js) in
  let b := mkBrowser [mkElement 0 LinkTag "/favicon.ico"; linkKatex h]
                     [mkElement 1 ScriptTag "/src/main.tsx"; scriptKatex h;
                      scriptMermaid h; scriptTailwind h]
                     6 [] false false [] [] in
  cleanup h (snd (cleanup h b)) = (Normal tt, snd (cleanup h b)).
Proof.
  intros h b.
  exact (proj1 (proj2 (App_cleanup_twice h b)) eq_refl).
Defined.

(** X10.  The cleanup of [App] touches nothing but its own four elements:
    any other element is in [head] or [body] afterwards exactly if it was
    there before, and nothing else of the browser state changes. *)
Theorem App_cleanup_spares_others :
  forall (h : Handles) (b : Browser) (x : Element) (p : Parent),
    same (linkKatex h) x = false ->
    same (scriptKatex h) x = false ->
    same (scriptMermaid h) x = false ->
    same (scriptTailwind h) x = false ->
    let b' := snd (cleanup h b) in
    contains p x b' = contains p x b
    /\ created b' = created b /\ appended b' = appended b
    /\ katex b' = katex b /\ mermaid b' = mermaid b.
Proof.
  intros h b x p H1 H2 H3 H4. cbv zeta. rewrite cleanup_each.
  split; [|apply remove_each_frame].
  apply remove_each_spares. unfold targets.
  repeat constructor; assumption.
Qed.

Lemma App_cleanup_spares_others_witness :
  let main := mkElement 1 ScriptTag "/src/main.tsx" in
  let h := mkHandles (mkElement 2 LinkTag katex_css)
                     (mkElement 3 ScriptTag katex_js)
                     (mkElement 4 ScriptTag mermaid_js)
                     (mkElement 5 ScriptTag tailwind_js) in
  let b1 := mkBrowser [mkElement 0 LinkTag "/favicon.ico"; linkKatex h]
                      [main; scriptKatex h; scriptMermaid h; scriptTailwind h]
                      6 [] false false [] [] in
  contains Body main (snd (cleanup h b1)) = contains Body main b1.
Proof.
  intros main h b1.
  exact (proj1 (App_cleanup_spares_others h b1 main Body
                  eq_refl eq_refl eq_refl eq_refl)).
Defined.

Lemma remount_restores (b : Browser) :
  fresh_above b ->
  head (remount b) = head b /\ body (remount b) = body b
  /\ created (remount b) = 4 + created b
  /\ List.length (appended (remount b)) = 4 + List.length (appended b)
  /\ fresh_above (remount b).
Proof.
  intros Hfresh.
  destruct (effect_cleanup_restores b [] Hfresh)
    as (h & b1 & b2 & E1 & E2 & Hh & Hb & Hc & Ha & _ & _ & _ & _ & _
        & Hhb & Hbb).
  unfold remount. rewrite E1. simpl in E2. rewrite E2. simpl.
  repeat split; try assumption.
  - rewrite Ha, length_app. simpl. lia.
  - unfold fresh_above in *. rewrite Hh, Hb, Hc, Hhb, Hbb.
    eapply Forall_lt_weaken; [|exact Hfresh]. lia.
Qed.

(** X11.  However often [App] is mounted and unmounted, the document does
    not grow: after n rounds [head] and [body] hold what they held at the
    start, while four elements were created and appended in each round. *)
Theorem App_remounts_leave_no_trace :
  forall (b : Browser) (n : nat),
    fresh_above b ->
    let b' := Nat.iter n remount b in
    head b' = head b /\ body b' = body b
    /\ created b' = 4 * n + created b
    /\ List.length (appended b') = 4 * n + List.length (appended b).
Proof.
  intros b n Hfresh. cbv zeta.
  assert (H : fresh_above (Nat.iter n remount b)
              /\ head (Nat.iter n remount b) = head b
              /\ body (Nat.iter n remount b) = body b
              /\ created (Nat.iter n remount b) = 4 * n + created b
              /\ List.length (appended (Nat.iter n remount b))
                 = 4 * n + List.length (appended b)).
  { induction n as [|n (F & Hh & Hb & Hc & Ha)]; [simpl; auto|].
    change (Nat.iter (S n) remount b) with (remount (Nat.iter n remount b)).
    destruct (remount_restores _ F) as (Hh' & Hb' & Hc' & Ha' & F').
    rewrite Hh', Hb', Hc', Ha', Hh, Hb, Hc, Ha.
    repeat split; try assumption; lia. }
  tauto.
Qed.

Lemma App_remounts_leave_no_trace_witness :
  let b := mkBrowser [mkElement 0 LinkTag "/favicon.ico"]
                     [mkElement 1 ScriptTag "/src/main.tsx"] 2 [] false
                     false [] [] in
  head (Nat.iter 3 remount b) = head b
  /\ body (Nat.iter 3 remount b) = body b
  /\ created (Nat.iter 3 remount b) = 14
  /\ List.length (appended (Nat.iter 3 remount b)) = 12.
Proof.
  apply (App_remounts_leave_no_trace
           (mkBrowser [mkElement 0 LinkTag "/favicon.ico"]
                      [mkElement 1 ScriptTag "/src/main.tsx"] 2 [] false
                      false [] []) 3).
  unfold fresh_above. simpl. repeat constructor.
Defined.

End ScopeCycles.

(** ** The older App: unguarded cleanup and the gate *)

Section OlderScope.
Import Js App.
Local Open Scope list_scope.

Lemma effect_older_explicit (b : Browser) :
  fresh_above b ->
  let l := mkElement (created b) LinkTag katex_css in
  let sk := mkElement (S (created b)) ScriptTag katex_js in
  let sm := mkElement (S (S (created b))) ScriptTag mermaid_js in
  let b1 := mkBrowser (head b ++ [l]) (body b ++ [sk; sm])
                      (S (S (S (created b)))) (appended b ++ [l; sk; sm])
                      (katex b) (mermaid b) (head_below b) (body_below b) in
  let b2 := mkBrowser (head b) (body b) (S (S (S (created b))))
                      (appended b ++ [l; sk; sm]) (katex b) (mermaid b)
                      (head_below b) (body_below b) in
  effect_older b = (Normal (mkHandlesOlder l sk sm), b1)
  /\ cleanup_older (mkHandlesOlder l sk sm) b1 = (Normal tt, b2).
Proof.
  intros Hfresh. apply fresh_parts in Hfresh as (Hh & Hb & Hhb & Hbb).
  destruct b as [hd bd n ap k m hb bb].
  cbn [head body created appended katex mermaid head_below body_below] in *.
  set (l := mkElement n LinkTag katex_css).
  set (sk := mkElement (S n) ScriptTag katex_js).
  set (sm := mkElement (S (S n)) ScriptTag mermaid_js).
  assert (C : forall (x : Element) l r,
             existsb (same x) (l ++ x :: r) = true).
  { intros x l0 r. rewrite existsb_app. cbn [existsb]. unfold same at 2.
    rewrite Nat.eqb_refl. apply orb_true_r. }
  split.
  { cbv [effect_older bind createElement appendChild modify ret
         with_children children head body created appended katex mermaid
         head_below body_below].
    rewrite <- !app_assoc. reflexivity. }
  cbv [cleanup_older bind removeChild is_child detach children below
       with_children with_below head body created appended katex mermaid
       head_below body_below link scriptKatexOlder scriptMermaidOlder].
  rewrite (C l hd []). cbv beta iota.
  rewrite (C sk bd [sm]). cbv beta iota.
  rewrite (filter_app_fresh l) by exact Hh.
  rewrite filter_self.
  rewrite (filter_app_fresh sk)
    by (eapply Forall_lt_weaken; [|eassumption]; simpl; lia).
  rewrite filter_self, !filter_other by (simpl; lia).
  cbn [filter]. rewrite (C sm bd []). cbv beta iota.
  rewrite (filter_app_fresh sm)
    by (eapply Forall_lt_weaken; [|eassumption]; simpl; lia).
  rewrite filter_self. cbn [filter]. rewrite !app_nil_r.
  rewrite (filter_fresh l hb)
    by (eapply Forall_lt_weaken; [|eassumption]; simpl; lia).
  rewrite (filter_fresh sk bb)
    by (eapply Forall_lt_weaken; [|eassumption]; simpl; lia).
  rewrite (filter_fresh sm bb)
    by (eapply Forall_lt_weaken; [|eassumption]; simpl; lia).
  reflexivity.
Qed.

(** X12.  The cleanup of the older variant calls [removeChild] without
    looking.  When the stylesheet link is no longer in [head] it throws
    [NotFoundError] at once and removes nothing, so both scripts stay; run
    a second time after a successful first run it throws. *)
Theorem OlderApp_cleanup_throws_when_detached :
  (forall (h : HandlesOlder) (b : Browser),
      contains Head (link h) b = false ->
      cleanup_older h b = (Throw (ErrorObject "NotFoundError"), b))
  /\ (forall b : Browser,
         fresh_above b ->
         exists h b1 b2,
           effect_older b = (Normal h, b1)
           /\ cleanup_older h b1 = (Normal tt, b2)
           /\ cleanup_older h b2 = (Throw (ErrorObject "NotFoundError"), b2)).
Proof.
  assert (A : forall (h : HandlesOlder) (b : Browser),
             contains Head (link h) b = false ->
             cleanup_older h b = (Throw (ErrorObject "NotFoundError"), b)).
  { intros h b H. unfold contains in H. apply orb_false_iff in H as [H _].
    unfold cleanup_older, bind, removeChild. rewrite H. reflexivity. }
  split; [exact A|].
  intros b Hfresh.
  destruct (effect_older_explicit b Hfresh) as [E1 E2].
  eexists _, _, _. split; [exact E1|]. split; [exact E2|].
  apply A.
  assert (G : contains Head (mkElement (created b) LinkTag katex_css) b
              = false)
    by (apply (fresh_not_contained b _ Head Hfresh); simpl; lia).
  unfold contains, is_child in *. exact G.
Qed.

Lemma OlderApp_cleanup_throws_when_detached_witness :
  exists h b1 b2,
    effect_older empty_browser = (Normal h, b1)
    /\ cleanup_older h b1 = (Normal tt, b2)
    /\ cleanup_older h b2 = (Throw (ErrorObject "NotFoundError"), b2).
Proof.
  apply (proj2 OlderApp_cleanup_throws_when_detached empty_browser).
  unfold fresh_above. simpl. constructor.
Defined.

End OlderScope.

Section OlderGate.
Import OlderApp.

Lemma older_katex_stays evs s :
  katexLoaded s = true -> katexLoaded (run evs s) = true.
Proof.
  revert s. induction evs as [|ev evs IH]; intros s H; [exact H|].
  simpl. apply IH. destruct ev; simpl; auto.
Qed.

Lemma older_gate_iff s :
  renderPage s <> LoadingResources <-> katexLoaded s = true.
Proof.
  unfold renderPage. destruct (katexLoaded s); simpl.
  - split; [reflexivity|intros _].
    repeat match goal with
           | |- context [if String.eqb ?a ?b then _ else _] =>
               destruct (String.eqb a b)
           end; discriminate.
  - split; [intros H; exfalso; apply H; reflexivity|discriminate].
Qed.

(** X13.  The gate of the older [App] waits for KaTeX alone: it builds the
    content pages exactly when [katexLoaded] is true, whatever
    [mermaidLoaded] is, and stays open once open.  So every method page,
    with its [MermaidDiagram], is built also while Mermaid has not
    loaded. *)
Theorem OlderApp_gate_waits_for_katex_only :
  forall s : AppState,
    (renderPage s <> LoadingResources <-> katexLoaded s = true)
    /\ (forall evs : list Event,
           katexLoaded s = true -> renderPage (run evs s) <> LoadingResources)
    /\ (forall page : string,
           In page ["direct"; "contraexample"; "absurd"; "contrapositive";
                    "induction"] ->
           mounts_diagram (renderPage (mkApp page true (mermaidLoaded s)))
           = true).
Proof.
  intros s. split; [apply older_gate_iff|]. split.
  - intros evs H. apply older_gate_iff, older_katex_stays, H.
  - intros page H. simpl in H.
    destruct H as [<-|[<-|[<-|[<-|[<-|[]]]]]]; reflexivity.
Qed.

Lemma OlderApp_gate_waits_for_katex_only_witness :
  renderPage (run [SetCurrentPage "induction"] (mkApp "home" true false))
  = InductionMethod
  /\ mounts_diagram (renderPage (mkApp "induction" true false)) = true.
Proof.
  split; [reflexivity|].
  apply (proj2 (proj2 (OlderApp_gate_waits_for_katex_only
                         (mkApp "home" true false)))).
  simpl. tauto.
Defined.

End OlderGate.

(** ** From the gate through the layout to the diagram *)

Section PagesAndDiagrams.
Import Js App Traces.

Lemma page_flag_true s b :
  page_flag (renderPage s) = Some b -> b = true.
Proof.
  unfold renderPage.
  destruct (katexLoaded s), (mermaidLoaded s), (tailwindLoaded s); simpl;
    try discriminate.
  repeat match goal with
         | |- context [if String.eqb ?a ?b then _ else _] =>
             destruct (String.eqb a b)
         end; simpl; congruence.
Qed.

Lemma layout_diagrams (p : Layout.Props) :
  Layout.diagrams (Layout.MethodPageLayout p)
  = match Layout.diagram p with
    | Some d => if truthy d
                then [Mermaid.mkProps d (Layout.isMermaidLoaded p)]
                else []
    | None => []
    end.
Proof.
  unfold Layout.MethodPageLayout, Layout.diagrams.
  rewrite !flat_map_app. simpl.
  destruct (Layout.steps p), (Layout.examples p), (Layout.image p);
    destruct (Layout.extraContent p) as [n|];
    try destruct (Layout.truthy_node n);
    destruct (Layout.diagram p) as [d|];
    try destruct (truthy d); reflexivity.
Qed.

(** X14.  Whatever page [renderPage] returns and whatever a page's content
    is, a [MermaidDiagram] it mounts gets [isMermaidLoaded] true and a
    chart that is not empty, the page's [diagram]; a page without diagram
    or with an empty one mounts none.  The branches of the diagram's
    effect for an engine that is not ready and for an empty chart are thus
    never taken at mount, and neither is the render branch: the mounted
    component has issued no call and shows the waiting placeholder. *)
Theorem App_pages_mount_ready_diagrams :
  forall (s : AppState) (content : Layout.Props) (p : Mermaid.Props),
    In p (Layout.diagrams (Layout.page_layout (renderPage s) content)) ->
    Mermaid.isMermaidLoaded p = true
    /\ truthy (Mermaid.chart p) = true
    /\ Layout.diagram content = Some (Mermaid.chart p)
    /\ constructs_pages s = true
    /\ (forall e : Mermaid.Env,
           Mermaid.effect p e (Mermaid.mkState None None false) = []
           /\ Mermaid.calls (Mermaid.mount p e) = []
           /\ Mermaid.view (Mermaid.state (Mermaid.mount p e))
              = Mermaid.Waiting).
Proof.
  intros s content p H.
  assert (G : exists b,
             page_flag (renderPage s) = Some b
             /\ In p (Layout.diagrams
                        (Layout.MethodPageLayout
                           (Layout.mkProps
                              (Layout.title content)
                              (Layout.description content)
                              (Layout.steps content)
                              (Layout.examples content)
                              (Layout.diagram content)
                              (Layout.image content)
                              (Layout.extraContent content) b)))).
  { unfold Layout.page_layout in H.
    destruct (renderPage s) as [| |b|b|b|b|b]; try (destruct H);
      exists b; split; auto. }
  destruct G as (b & Hflag & Hin).
  pose proof (page_flag_true s b Hflag) as ->.
  rewrite layout_diagrams in Hin. cbn [Layout.diagram Layout.isMermaidLoaded]
    in Hin.
  destruct (Layout.diagram content) as [d|]; [|destruct Hin].
  destruct (truthy d) eqn:Ht; [|destruct Hin].
  destruct Hin as [<-|[]]. cbn [Mermaid.isMermaidLoaded Mermaid.chart].
  repeat split; try assumption.
  - unfold constructs_pages. destruct (renderPage s); try reflexivity;
      discriminate Hflag.
  - unfold Mermaid.effect. simpl. rewrite Ht. simpl.
    rewrite andb_false_r. reflexivity.
  - unfold Mermaid.mount, Mermaid.run_effect, Mermaid.effect. simpl.
    rewrite Ht. simpl. rewrite andb_false_r. reflexivity.
  - unfold Mermaid.mount, Mermaid.run_effect, Mermaid.effect. simpl.
    rewrite Ht. simpl. rewrite andb_false_r. reflexivity.
Qed.

Lemma App_pages_mount_ready_diagrams_witness :
  Mermaid.view
    (Mermaid.state
       (Mermaid.mount (Mermaid.mkProps "graph TD; A-->B" true)
                      (Mermaid.mkEnv true 1700000000000 "0.4fzyo82mvyr")))
  = Mermaid.Waiting.
Proof.
  apply (App_pages_mount_ready_diagrams
           (mkApp "direct" true true true)
           (Layout.mkProps
              (Layout.TextNode "Método Direto")
              (Layout.Fragment [Layout.Bold "Método Direto";
                                Layout.Math "P(x) \rightarrow Q(x)" false])
              (Some ["Assuma: que a premissa P(x) é verdadeira."])
              (Some []) (Some "graph TD; A-->B") None None false)
           (Mermaid.mkProps "graph TD; A-->B" true)).
  simpl. left. reflexivity.
Defined.

End PagesAndDiagrams.

(** ** Navigation *)

Section Navigation.
Import App Nav.

Lemma known_page_facts page k m t :
  In page (map id navItems) ->
  List.length (filter (selected page) navItems) = 1
  /\ (renderPage (mkApp page k m t) = HomePage -> page = "home").
Proof.
  simpl. intros [<-|[<-|[<-|[<-|[<-|[<-|[]]]]]]];
    (split; [reflexivity|]);
    unfold renderPage; simpl;
    destruct k, m, t; simpl; try discriminate; reflexivity.
Qed.

Lemma methods_are_entries n m :
  nth_error methods n = Some m -> In (method_id m) (map id navItems).
Proof.
  do 5 (destruct n as [|n]; [intros [= <-]; simpl; tauto|]).
  destruct n; discriminate.
Qed.

Lemma known_page_step s ev :
  In (currentPage (app s)) (map id navItems) ->
  In (currentPage (app (step s ev))) (map id navItems).
Proof.
  intros H. destruct ev as [e| |n|n]; cbn [step].
  - destruct e; simpl; assumption.
  - exact H.
  - destruct (nth_error navItems n) as [item|] eqn:E; [|exact H].
    cbn [setIsOpen setCurrentPage app App.step currentPage].
    apply in_map, (nth_error_In _ _ E).
  - destruct (renderPage (app s)); try exact H.
    destruct (nth_error methods n) as [m|] eqn:E; [|exact H].
    cbn [setCurrentPage app App.step currentPage].
    apply (methods_are_entries n m E).
Qed.

(** X15.  Whatever is loaded and whatever is clicked, in whatever order,
    [currentPage] is the id of an entry of the navigation bar.  Exactly one
    entry is drawn as selected, and the [default] branch of [renderPage]
    is never the one taken: the home page is shown only for [home]. *)
Theorem Nav_current_page_is_an_entry :
  forall evs : list Event,
    let s := run evs initial in
    In (currentPage (app s)) (map id navItems)
    /\ List.length (filter (selected (currentPage (app s))) navItems) = 1
    /\ (renderPage (app s) = HomePage -> currentPage (app s) = "home").
Proof.
  intros evs.
  assert (H : In (currentPage (app (run evs initial))) (map id navItems)).
  { induction evs as [|ev evs IH] using rev_ind; [simpl; tauto|].
    unfold run. rewrite fold_left_app. apply known_page_step, IH. }
  cbv zeta. split; [exact H|].
  destruct (app (run evs initial)) as [page k m t].
  apply known_page_facts, H.
Qed.

Lemma Nav_current_page_is_an_entry_witness :
  currentPage
    (app (run [ Onload KatexOnload; Onload MermaidOnload;
                Onload TailwindOnload; NavClick 2; Toggle; NavClick 0 ]
              initial))
  = "home".
Proof.
  apply (Nav_current_page_is_an_entry
           [ Onload KatexOnload; Onload MermaidOnload; Onload TailwindOnload;
             NavClick 2; Toggle; NavClick 0 ]).
  reflexivity.
Defined.

Lemma nav_pages_distinct n m :
  n < 6 -> m < 6 ->
  renderPage (mkApp (nth n (map id navItems) EmptyString) true true true)
  = renderPage (mkApp (nth m (map id navItems) EmptyString) true true true) ->
  n = m.
Proof.
  intros Hn Hm.
  destruct n as [|[|[|[|[|[|n]]]]]]; try lia;
    destruct m as [|[|[|[|[|[|m]]]]]]; try lia;
    cbn; intros H; try reflexivity; discriminate H.
Qed.

(** X16.  Pressing an entry of the navigation bar closes the menu and, with
    the gate open, shows that entry's page: two different entries never
    lead to the same page.  A button of the home page sets the page the
    entry of the same name sets, and leaves the menu as it is: the two
    lead to the same state exactly when the menu was closed. *)
Theorem Nav_entries_lead_to_their_pages :
  forall (s : State) (n m : nat),
    constructs_pages (app s) = true ->
    n < List.length navItems ->
    m < List.length navItems ->
    isOpen (step s (NavClick n)) = false
    /\ constructs_pages (app (step s (NavClick n))) = true
    /\ (renderPage (app (step s (NavClick n)))
        = renderPage (app (step s (NavClick m))) -> n = m)
    /\ (renderPage (app s) = HomePage ->
        n < List.length methods ->
        app (step s (HomeClick n)) = app (step s (NavClick (S n)))
        /\ isOpen (step s (HomeClick n)) = isOpen s
        /\ (step s (HomeClick n) = step s (NavClick (S n))
            <-> isOpen s = false)
        /\ option_map method_name (nth_error methods n)
           = option_map name (nth_error navItems (S n))).
Proof.
  intros [[page k mm t] o] n m Hopen Hn Hm.
  apply constructs_pages_iff in Hopen. simpl in Hopen.
  destruct Hopen as (-> & -> & ->). simpl in Hn, Hm.
  set (s := mkState (mkApp page true true true) o).
  assert (P : forall i, i < 6 ->
                app (step s (NavClick i))
                = mkApp (nth i (map id navItems) EmptyString) true true true
                /\ isOpen (step s (NavClick i)) = false).
  { intros i Hi. destruct i as [|[|[|[|[|[|i]]]]]]; try lia;
      split; reflexivity. }
  destruct (P n Hn) as [En On]. destruct (P m Hm) as [Em _].
  split; [exact On|]. rewrite En, Em.
  split; [apply constructs_pages_iff; simpl; auto|].
  split; [apply nav_pages_distinct; assumption|].
  intros Hhome Hlt. simpl in Hlt. subst s. cbn [app] in Hhome.
  destruct n as [|[|[|[|[|n]]]]]; try lia;
    cbn [step app]; rewrite Hhome;
    (split; [reflexivity|]); (split; [reflexivity|]);
    (split; [|reflexivity]); cbn;
    (split; [intros H; apply (f_equal isOpen) in H; exact H
            | intros ->; reflexivity]).
Qed.

Lemma Nav_entries_lead_to_their_pages_witness :
  let s := mkState (mkApp "home" true true true) true in
  isOpen (step s (NavClick 4)) = false
  /\ renderPage (app (step s (NavClick 4))) = ContrapositiveMethod true
  /\ app (step s (HomeClick 3)) = app (step s (NavClick 4))
  /\ isOpen (step s (HomeClick 3)) = true.
Proof.
  intros s.
  destruct (Nav_entries_lead_to_their_pages s 3 3 eq_refl) as (_ & _ & _ & H);
    [simpl; lia | simpl; lia |].
  destruct (Nav_entries_lead_to_their_pages s 4 4 eq_refl) as (H1 & _);
    [simpl; lia | simpl; lia |].
  split; [exact H1|]. split; [reflexivity|].
  destruct H as (Ha & Ho & _); [reflexivity | simpl; lia |].
  split; [exact Ha | exact Ho].
Defined.

End Navigation.

(** ** The shape of a job identifier *)

Section IdentifierShape.
Import Js Mermaid.

Lemma substring_length n m s :
  String.length (substring n m s) = Nat.min m (String.length s - n).
Proof.
  revert n m. induction s as [|c s IH]; intros [|n] [|m]; simpl;
    try reflexivity; rewrite IH; try reflexivity.
  - rewrite Nat.sub_0_r. reflexivity.
Qed.

Lemma string_of_N_nonempty n : string_of_N n <> EmptyString.
Proof.
  unfold string_of_N. destruct n as [|p]; [discriminate|].
  pose proof (DecimalPos.Unsigned.to_uint_nonnil p) as H.
  simpl. destruct (Pos.to_uint p); try discriminate. contradiction.
Qed.

Lemma string_of_uint_digits d : all_digits (NilEmpty.string_of_uint d) = true.
Proof. induction d; simpl; try reflexivity; exact IHd. Qed.

Lemma to_uint_normal n : Decimal.unorm (N.to_uint n) = N.to_uint n.
Proof.
  rewrite <- DecimalN.Unsigned.to_of, DecimalN.Unsigned.of_to. reflexivity.
Qed.

(** X17.  A job identifier is [mermaid-chart-], the clock value written
    in decimal, a dash, and what [substr(2, 9)] keeps of the random text.
    The stamp is made of digits only and reads back as the numeral of
    [Date.now()] without leading zeros.  The suffix holds, position by
    position, the characters of the random text after the first two,
    nine at most, so none at all when the text has no more than two
    characters, as for a random number 0. *)
Theorem uniqueId_shape :
  forall (now : N) (random36 : string),
    exists stamp suffix,
      uniqueId now random36 = "mermaid-chart-" ++ stamp ++ "-" ++ suffix
      /\ stamp <> EmptyString /\ no_dash stamp
      /\ all_digits stamp = true
      /\ (exists d, NilEmpty.uint_of_string stamp = Some d
                    /\ Decimal.unorm d = d /\ N.of_uint d = now)
      /\ String.length suffix = Nat.min 9 (String.length random36 - 2)
      /\ (forall i, i < 9 ->
             String.get i suffix = String.get (i + 2) random36)
      /\ (forall i, 9 <= i -> String.get i suffix = None)
      /\ (String.length random36 <= 2 -> suffix = EmptyString).
Proof.
  intros now random36.
  exists (string_of_N now), (substring 2 9 random36).
  split; [reflexivity|]. split; [apply string_of_N_nonempty|].
  split; [apply string_of_uint_no_dash|].
  split; [apply string_of_uint_digits|].
  split.
  { exists (N.to_uint now). unfold string_of_N.
    split; [apply NilEmpty.usu|].
    split; [apply to_uint_normal | apply DecimalN.Unsigned.of_to]. }
  pose proof (substring_length 2 9 random36) as L.
  split; [exact L|].
  split; [intros i Hi; apply substring_correct1, Hi|].
  split; [intros i Hi; apply substring_correct2, Hi|].
  intros H.
  destruct (substring 2 9 random36); [reflexivity|].
  cbn [String.length] in L. lia.
Qed.

Lemma uniqueId_shape_witness :
  (exists stamp,
      uniqueId 1700000000000 "0" = "mermaid-chart-" ++ stamp ++ "-")
  /\ (exists stamp suffix,
         uniqueId 1700000000000 "0.4fzyo82mvyr"
         = "mermaid-chart-" ++ stamp ++ "-" ++ suffix
         /\ String.get 0 suffix = Some "4"%char
         /\ String.get 8 suffix = Some "v"%char
         /\ String.get 9 suffix = None).
Proof.
  split.
  - destruct (uniqueId_shape 1700000000000 "0")
      as (stamp & suffix & E & _ & _ & _ & _ & _ & _ & _ & H).
    exists stamp. rewrite E, (H (Nat.le_succ_diag_r 1)). reflexivity.
  - destruct (uniqueId_shape 1700000000000 "0.4fzyo82mvyr")
      as (stamp & suffix & E & _ & _ & _ & _ & _ & G & G' & _).
    exists stamp, suffix. split; [exact E|].
    split; [exact (G 0 ltac:(lia))|].
    split; [exact (G 8 ltac:(lia))|].
    exact (G' 9 (le_n 9)).
Defined.

End IdentifierShape.
